(** * The Frida host layer of httptoolkit-server: discovery, host state and
      provisioning

    A shallow embedding of [src/interceptors/frida/frida-hosts.ts] and of the
    [FridaAndroidInterceptor] class that fronts it.

    The source is asynchronous JavaScript.  An [async] function is embedded
    as a [Task]: a tree whose nodes are the synchronous effects the function
    performs and the points where it is suspended on a pending request to
    the outside world (ADB, the Frida client, a timer).  [run] executes a
    task against a [World], which decides how every request settles and, when
    two requests are pending at once, which of them settles first.  The
    history of a run lists what happened, in order. *)

From Stdlib Require Import ZArith String Ascii List Bool Lia Eqdep_dec.
From stdpp Require Import base decidable option list strings pretty gmap.

Local Open Scope Z_scope.
Local Open Scope string_scope.
Local Open Scope list_scope.

(** ** Strings *)

Module Str.

(** The white space and line terminators that [String.prototype.trim]
    strips, among the code units below 256. *)
Definition isWhiteSpace (c : ascii) : bool :=
  match N_of_ascii c with
  | 9%N | 10%N | 11%N | 12%N | 13%N | 32%N | 160%N => true
  | _ => false
  end.

Fixpoint trimStart (s : string) : string :=
  match s with
  | EmptyString => EmptyString
  | String c s' => if isWhiteSpace c then trimStart s' else s
  end.

Definition trimEnd (s : string) : string :=
  String.rev (trimStart (String.rev s)).

Definition trim (s : string) : string := trimEnd (trimStart s).

(** [s.split(sep)] for a separator of one character. *)
Fixpoint split (sep : ascii) (s : string) : list string :=
  match s with
  | EmptyString => [EmptyString]
  | String c s' =>
      if Ascii.eqb c sep then EmptyString :: split sep s'
      else match split sep s' with
           | [] => [String c EmptyString]
           | w :: ws => String c w :: ws
           end
  end.

(** [l.join(sep)] *)
Fixpoint join (sep : string) (l : list string) : string :=
  match l with
  | [] => EmptyString
  | [x] => x
  | x :: l' => x +:+ sep +:+ join sep l'
  end.

(** [l.includes(x)] *)
Definition includes (l : list string) (x : string) : bool :=
  existsb (String.eqb x) l.

End Str.

(** ** Data model *)

Inductive HostState : Type :=
| unavailable      (* Probably not Frida compatible (e.g. not rooted) *)
| setup_required   (* Probably compatible but Frida not installed *)
| launch_required  (* Frida installed, should work if launched *)
| available.       (* Frida seems to be running & ready right now *)

Module FridaTarget.
Record t : Type := mk { id : string; name : string }.
End FridaTarget.

Module FridaHost.
Record t : Type := mk {
  id : string;
  name : string;
  type : string;
  state : HostState;
  targets : option (list FridaTarget.t)
}.
End FridaHost.

Definition HostState_eqb (a b : HostState) : bool :=
  match a, b with
  | unavailable, unavailable
  | setup_required, setup_required
  | launch_required, launch_required
  | available, available => true
  | _, _ => false
  end.

(** A directory entry as [deviceClient.readdir] reports it. *)
Module Entry.
Record t : Type := mk { name : string; mode : Z }.
End Entry.

(** The canonical architectures: the values of [ABI_ARCH_MAP]. *)
Inductive Arch : Type := arm64 | arm | x86 | x86_64.

(** Handles of the outside world are opaque to this code. *)
Definition DeviceClient : Type := string.
Definition Conn : Type := nat.
Definition Stream : Type := nat.
Definition Session : Type := nat.
Definition Error : Type := string.

(** [getRootCommand] yields a function that wraps a command line so that
    it runs as root. *)
Definition RootCommand : Type := list string -> list string.

(** ** Requests to the outside world *)

Inductive Call : Type :=
| GetConnectedDevices
| OpenTcp (deviceClient : DeviceClient) (port : Z)
| Readdir (deviceClient : DeviceClient) (path : string)
| IsProbablyRooted (deviceClient : DeviceClient)
| GetProperties (deviceClient : DeviceClient)
| DownloadFridaServer (version platform : string) (arch : option Arch)
| Push (deviceClient : DeviceClient) (contents : Stream) (path : string) (mode : Z)
| GetRootCommand (deviceClient : DeviceClient)
| Shell (deviceClient : DeviceClient) (command : list string)
| Delay (ms : Z)
| FridaConnect (stream : Conn)
| EnumerateApplications (session : Session)
| BuildAndroidFridaScript (caCertContent proxyHost : string) (proxyPort : Z)
| SpawnWithScript (session : Session) (appId script : string).

(** What a request yields when it is fulfilled. *)
Definition RetTy (c : Call) : Type :=
  match c with
  | GetConnectedDevices => list string
  | OpenTcp _ _ => Conn
  | Readdir _ _ => list Entry.t
  | IsProbablyRooted _ => bool
  | GetProperties _ => gmap string string
  | DownloadFridaServer _ _ _ => Stream
  | Push _ _ _ _ => unit
  | GetRootCommand _ => option RootCommand
  | Shell _ _ => Stream
  | Delay _ => unit
  | FridaConnect _ => Session
  | EnumerateApplications _ => list FridaTarget.t
  | BuildAndroidFridaScript _ _ _ => string
  | SpawnWithScript _ _ _ => unit
  end.

Global Instance Arch_eq_dec : EqDecision Arch.
Proof. solve_decision. Defined.

Global Instance Call_eq_dec : EqDecision Call.
Proof. solve_decision. Defined.

(** How a promise settles. *)
Inductive Outcome (A : Type) : Type :=
| Fulfilled (a : A)
| Rejected (e : Error).
Arguments Fulfilled {A} a.
Arguments Rejected {A} e.

Definition fulfilled {A} (o : Outcome A) : bool :=
  match o with Fulfilled _ => true | Rejected _ => false end.

(** Synchronous effects. *)
Inductive Effect : Type :=
| Issue (c : Call)                 (* the request is sent; a promise is pending *)
| ConnOnError (conn : Conn)        (* conn.on('error', () => {}) *)
| ConnEnd (conn : Conn)            (* conn.end() *)
| ConsoleLog (msg : string)        (* console.log(msg) *)
| Pipe (stream : Stream)           (* stream.pipe(process.stdout) *)
| Disconnect (session : Session).  (* fridaSession.disconnect() *)

Inductive Event : Type :=
| Did (e : Effect)
| Settled (c : Call) (o : Outcome (RetTy c)).

Definition History : Type := list Event.

(** ** Tasks *)

Inductive Task (A : Type) : Type :=
| Ret (a : A)                                     (* fulfilled with a *)
| Throw (e : Error)                               (* rejected with e *)
| Act (e : Effect) (t : Task A)                   (* a synchronous effect *)
| Wait (c : Call) (k : Outcome (RetTy c) -> Task A) (* suspended on a pending request *)
| Race (l r : Task A).                            (* several requests pending: goes on as l or as r, as they settle *)
Arguments Ret {A} a.
Arguments Throw {A} e.
Arguments Act {A} e t.
Arguments Wait {A} c k.
Arguments Race {A} l r.

Fixpoint bind {A B} (t : Task A) (f : A -> Task B) : Task B :=
  match t with
  | Ret a => f a
  | Throw e => Throw e
  | Act e t' => Act e (bind t' f)
  | Wait c k => Wait c (fun o => bind (k o) f)
  | Race l r => Race (bind l f) (bind r f)
  end.

(** [try { t } catch (e) { handler e }], and [p.catch(handler)]. *)
Fixpoint catch {A} (t : Task A) (handler : Error -> Task A) : Task A :=
  match t with
  | Ret a => Ret a
  | Throw e => handler e
  | Act e t' => Act e (catch t' handler)
  | Wait c k => Wait c (fun o => catch (k o) handler)
  | Race l r => Race (catch l handler) (catch r handler)
  end.

Declare Scope task_scope.
Delimit Scope task_scope with task.
Notation "'let*' x ':=' t 'in' k" := (bind t (fun x => k))
  (at level 10, x binder, t at level 200, k at level 200) : task_scope.
Notation "t ';;' k" := (bind t (fun _ => k))
  (at level 100, k at level 200, right associativity) : task_scope.
Local Open Scope task_scope.

(** Calling into the outside world: the request goes out at once, the
    caller gets the settlement when it waits for it. *)
Definition call (c : Call) : Task (RetTy c) :=
  Act (Issue c)
    (Wait c (fun o => match o with
                      | Fulfilled v => Ret v
                      | Rejected e => Throw e
                      end)).

Definition do (e : Effect) : Task unit := Act e (Ret tt).

(** ** Promise.all

    The tasks have all been started before [Promise.all] sees them: each
    has run up to its first suspension, the left one first.  After that the
    world decides which pending request settles next.  When one task is
    rejected the whole is rejected at once; what the other would go on to
    do in the background is left out. *)

Fixpoint started {A B} (t : Task B) (e : Error) : Task A :=
  match t with
  | Act ev t' => Act ev (started t' e)
  | _ => Throw e
  end.

Fixpoint all2 {A B} (t1 : Task A) : Task B -> Task (A * B) :=
  fix all2_right (t2 : Task B) : Task (A * B) :=
    match t1 with
    | Act e t1' => Act e (all2 t1' t2)
    | Throw e => started t2 e
    | Race l r =>
        match t2 with
        | Act e t2' => Act e (all2_right t2')
        | Throw e => Throw e
        | _ => Race (all2 l t2) (all2 r t2)
        end
    | Ret a =>
        match t2 with
        | Act e t2' => Act e (all2_right t2')
        | _ => bind t2 (fun b => Ret (a, b))
        end
    | Wait c1 k1 =>
        match t2 with
        | Act e t2' => Act e (all2_right t2')
        | Throw e => Throw e
        | Ret b => Wait c1 (fun o => bind (k1 o) (fun a => Ret (a, b)))
        | Race l r => Race (all2_right l) (all2_right r)
        | Wait c2 k2 =>
            Race (Wait c1 (fun o => all2 (k1 o) t2))
                 (Wait c2 (fun o => all2_right (k2 o)))
        end
    end.

Fixpoint all {A} (ts : list (Task A)) : Task (list A) :=
  match ts with
  | [] => Ret []
  | t :: ts' => let* '(a, l) := all2 t (all ts') in Ret (a :: l)
  end.

(** ** Running a task *)

Record World : Type := {
  (** how the pending request [c] settles, given what happened so far *)
  answer : forall c : Call, History -> Outcome (RetTy c);
  (** which alternative of a [Race] goes on, the left one when true;
      [n] counts the choices already made since the last event, so that
      every order in which several pending requests can settle is the
      order of some world *)
  first : History -> nat -> bool
}.

Fixpoint exec {A} (w : World) (t : Task A) (h : History) (n : nat)
  : Outcome A * History * nat :=
  match t with
  | Ret a => (Fulfilled a, h, n)
  | Throw e => (Rejected e, h, n)
  | Act e t' => exec w t' (h ++ [Did e]) 0%nat
  | Wait c k =>
      let o := answer w c h in exec w (k o) (h ++ [Settled c o]) 0%nat
  | Race l r =>
      if first w h n then exec w l h (S n) else exec w r h (S n)
  end.

(** The settlement of the task and the history at that point, from the
    history [h]. *)
Definition run {A} (w : World) (t : Task A) (h : History) : Outcome A * History :=
  fst (exec w t h 0%nat).

(** ** frida-hosts.ts *)

Definition FRIDA_DEFAULT_PORT : Z := 27042.
Definition FRIDA_ALTERNATE_PORT : Z := 24072. (* Reversed to mildly inconvenience detection *)

Definition FRIDA_VERSION : string := "16.1.7".

Definition ANDROID_DEVICE_HTK_PATH : string := "/data/local/tmp/.httptoolkit".
Definition FRIDA_BINARY_NAME : string := "adirf-server".
Definition FRIDA_BINARY_PATH : string :=
  ANDROID_DEVICE_HTK_PATH +:+ "/" +:+ FRIDA_BINARY_NAME.

Definition ALL_X_PERMS : Z := 73. (* 0o00111 *)

(** [adbClient.getDevice(deviceId)]: the handle of a device is its id. *)
Definition getDevice (deviceId : string) : DeviceClient := deviceId.

Definition isFridaInstalled (deviceClient : DeviceClient) : Task bool :=
  catch
    (let* entries := call (Readdir deviceClient ANDROID_DEVICE_HTK_PATH) in
     Ret (existsb (fun entry =>
                     String.eqb (Entry.name entry) FRIDA_BINARY_NAME &&
                     negb (Z.eqb (Z.land (Entry.mode entry) ALL_X_PERMS) 0))
            entries))
    (fun _ => Ret false).

Definition isDevicePortOpen (deviceClient : DeviceClient) (port : Z) : Task bool :=
  catch
    (let* conn := call (OpenTcp deviceClient port) in
     (* If the connection opened at all, then something is listening... *)
     do (ConnOnError conn);;
     do (ConnEnd conn);;
     Ret true)
    (fun _ =>
       (* If the port is closed, we jump straight to the error state instead *)
       Ret false).

(** [isProbablyRooted] comes from [../android/adb-commands]: a request
    that the world answers with a boolean, or rejects. *)
Definition isProbablyRooted (deviceClient : DeviceClient) : Task bool :=
  call (IsProbablyRooted deviceClient).

Definition getHostStatus (deviceId : string) : Task FridaHost.t :=
  let deviceClient := getDevice deviceId in
  let* '(defaultPortOpen, alternatePortOpen) :=
    all2 (isDevicePortOpen deviceClient FRIDA_DEFAULT_PORT)
         (isDevicePortOpen deviceClient FRIDA_ALTERNATE_PORT) in
  let* state :=
    if defaultPortOpen || alternatePortOpen then Ret available
    else
      let* installed := isFridaInstalled deviceClient in
      if installed then Ret launch_required
      else
        let* rooted := isProbablyRooted deviceClient in
        if rooted then Ret setup_required
        else
          (* No Frida - looks unrooted - nothing we can do. *)
          Ret unavailable
  in
  Ret {| FridaHost.id := deviceId;
         FridaHost.name := deviceId;
         FridaHost.type := "android";
         FridaHost.state := state;
         FridaHost.targets := None |}.

Definition getAndroidFridaHosts : Task (list FridaHost.t) :=
  let* devices := call GetConnectedDevices in
  let* result := all (map (fun deviceId => getHostStatus deviceId) devices) in
  Ret result.

Definition ABI_ARCH_MAP : list (string * Arch) :=
  [ ("arm64-v8a", arm64);
    ("armeabi", arm);
    ("armabi-v7a", arm);
    ("x86", x86);
    ("x86_64", x86_64) ].

(** [Object.keys(m)] and [m[key]] *)
Definition keys {V} (m : list (string * V)) : list string := map fst m.

Fixpoint get {V} (m : list (string * V)) (key : string) : option V :=
  match m with
  | [] => None
  | (k, v) :: m' => if String.eqb k key then Some v else get m' key
  end.

(** The device's ABIs, best first: the list property when the device has
    it, else the single ABI; reading neither raises a TypeError when the
    missing value is trimmed. *)
Definition supportedAbisOf (deviceProperties : gmap string string) : Task (list string) :=
  match deviceProperties !! "ro.product.cpu.abilist" with
  | Some abilist => Ret (map Str.trim (Str.split "," abilist))
  | None =>
      match deviceProperties !! "ro.product.cpu.abi" with
      | Some abi => Ret (map Str.trim [abi])
      | None => Throw "Cannot read properties of undefined (reading 'trim')"
      end
  end.

Definition firstKnownAbiOf (supportedAbis : list string) : option string :=
  List.find (fun abi => Str.includes (keys ABI_ARCH_MAP) abi) supportedAbis.

(** [!x] for a string that may be undefined *)
Definition falsy (x : option string) : bool :=
  match x with
  | None => true
  | Some s => String.eqb s EmptyString
  end.

Definition setupAndroidHost (hostId : string) : Task unit :=
  let deviceClient := getDevice hostId in
  let* deviceProperties := call (GetProperties deviceClient) in
  let* supportedAbis := supportedAbisOf deviceProperties in
  let firstKnownAbi := firstKnownAbiOf supportedAbis in
  if falsy firstKnownAbi
  then Throw ("Did not recognize any device ABIs from " +:+ Str.join "," supportedAbis)
  else
    let deviceArch := get ABI_ARCH_MAP (default EmptyString firstKnownAbi) in
    let* serverStream :=
      call (DownloadFridaServer FRIDA_VERSION "android" deviceArch) in
    call (Push deviceClient serverStream FRIDA_BINARY_PATH 365 (* 0o555 *)).

(** A timer cannot fail: however the world settles it, the task goes on. *)
Definition sleep (ms : Z) : Task unit :=
  Act (Issue (Delay ms)) (Wait (Delay ms) (fun _ => Ret tt)).

(** Modelled from the spec: [waitUntil] of [../../util/promise], which is
    not among the sources.  "Given an interval, a maximum attempt count,
    and a boolean-returning probe, repeatedly invoke the probe, sleeping
    the interval between attempts, until it returns true or the attempt
    budget is exhausted.  Any error raised by the probe during a single
    attempt is treated as not ready yet and logged, not rethrown, except
    that exhausting the attempt budget raises a terminal timeout error to
    the caller."  The spec does not give the text of the timeout error:
    it is the parameter [timeoutError]. *)
Fixpoint waitUntil (timeoutError : Error) (delayMs : Z) (tries : nat)
    (test : Task bool) : Task unit :=
  match tries with
  | O => Throw timeoutError
  | S tries' =>
      let* ready := catch test (fun e => do (ConsoleLog e);; Ret false) in
      if ready then Ret tt
      else
        match tries' with
        | O => Throw timeoutError
        | S _ => sleep delayMs;; waitUntil timeoutError delayMs tries' test
        end
  end.

Section Launch.

Variable timeoutError : Error.

Definition launchAndroidHost (hostId : string) : Task unit :=
  let deviceClient := getDevice hostId in
  let* runAsRoot := call (GetRootCommand deviceClient) in
  match runAsRoot with
  | None => Throw "Couldn't get root access to launch Frida Server"
  | Some runAsRoot =>
      let* fridaServerStream :=
        call (Shell deviceClient
                (runAsRoot [FRIDA_BINARY_PATH; "-l";
                            "127.0.0.1:" +:+ pretty FRIDA_ALTERNATE_PORT])) in
      do (Pipe fridaServerStream);;
      (* Wait until the server becomes accessible *)
      catch
        (waitUntil timeoutError 500 10
           (catch
              (let* status := getHostStatus hostId in
               Ret (HostState_eqb (FridaHost.state status) available))
              (fun e => do (ConsoleLog e);; Ret false)))
        (fun e =>
           do (ConsoleLog e);;
           Throw ("Failed to launch Frida server for " +:+ hostId))
  end.

End Launch.

Definition getAndroidFridaTargets (hostId : string) : Task (list FridaTarget.t) :=
  let deviceClient := getDevice hostId in
  (* Try alt port first (preferred and more likely to work - it's ours) *)
  let* fridaStream :=
    catch (call (OpenTcp deviceClient FRIDA_ALTERNATE_PORT))
          (fun _ => call (OpenTcp deviceClient FRIDA_DEFAULT_PORT)) in
  let* fridaSession := call (FridaConnect fridaStream) in
  let* apps := call (EnumerateApplications fridaSession) in
  do (Disconnect fridaSession);;
  Ret apps.

Definition interceptAndroidFridaTarget (hostId appId caCertContent : string)
    (proxyPort : Z) : Task unit :=
  let deviceClient := getDevice hostId in
  (* Try alt port first (preferred and more likely to work - it's ours) *)
  let* fridaStream :=
    catch (call (OpenTcp deviceClient FRIDA_ALTERNATE_PORT))
          (fun _ => call (OpenTcp deviceClient FRIDA_DEFAULT_PORT)) in
  let* fridaSession := call (FridaConnect fridaStream) in
  let* script :=
    call (BuildAndroidFridaScript caCertContent "10.0.0.102" proxyPort) in
  call (SpawnWithScript fridaSession appId script).

(** ** The interceptor class *)

Record HtkConfig : Type := { https_certContent : string }.

Module FridaAndroidInterceptor.

Definition id : string := "android-frida".
Definition version : string := "1.0.0".
Definition activableTimeout : Z := 3000.

(** The options of [activate] as they arrive: the fields its type
    promises, and an action that is any string, or missing. *)
Record Options : Type := {
  action : option string;
  hostId : string;
  targetId : string
}.

(** [x === s] *)
Definition strictEq (x : option string) (s : string) : bool :=
  match x with
  | Some x => String.eqb x s
  | None => false
  end.

Section Activate.

Variable timeoutError : Error.
Variable config : HtkConfig.

Definition activate (proxyPort : Z) (options : Options) : Task unit :=
  if strictEq (action options) "setup" then
    setupAndroidHost (hostId options)
  else if strictEq (action options) "launch" then
    launchAndroidHost timeoutError (hostId options)
  else if strictEq (action options) "intercept" then
    interceptAndroidFridaTarget
      (hostId options)
      (targetId options)
      (https_certContent config)
      proxyPort
  else
    Throw ("Unknown Frida interception command: " +:+
           default "(none)" (action options)).

End Activate.

Definition isActive : bool := false.

Definition getSubMetadata (hostId : string) : Task (list FridaTarget.t) :=
  let* targets := getAndroidFridaTargets hostId in
  Ret targets.

Definition deactivate (proxyPort : Z) : Task unit := Ret tt.
Definition deactivateAll : Task unit := Ret tt.

(** *** The cached lookup

    [_fridaTargetsPromise] holds the promise of the lookup that is
    active, so that concurrent calls share it.  Several calls of one
    object that wait on one promise are not a [Task]; the object and
    its promises are a state, and [getFridaHosts] and the settling of a
    lookup are its steps. *)

Definition PromiseId : Type := nat.
Definition Caller : Type := nat.
Definition Hosts : Type := Outcome (list FridaHost.t).

Record Object : Type := {
  _fridaTargetsPromise : option PromiseId;
  (** calls of [getAndroidFridaHosts] that have not settled *)
  lookups : list PromiseId;
  (** how many calls of [getAndroidFridaHosts] were ever made *)
  started : nat;
  (** callers suspended at [await this._fridaTargetsPromise] *)
  awaiting : list (Caller * PromiseId);
  (** what each caller has got back, oldest first *)
  returned : list (Caller * Hosts)
}.

Definition new : Object :=
  {| _fridaTargetsPromise := None;
     lookups := [];
     started := 0%nat;
     awaiting := [];
     returned := [] |}.

(** A caller enters [getFridaHosts] and runs up to the [await]. *)
Definition getFridaHosts (caller : Caller) (this : Object) : Object :=
  let this :=
    match _fridaTargetsPromise this with
    | None =>
        (* We cache the targets lookup whilst it's active, so that concurrent
           calls all just run one lookup and return the same result. *)
        let p := started this in
        {| _fridaTargetsPromise := Some p;
           lookups := p :: lookups this;
           started := S (started this);
           awaiting := awaiting this;
           returned := returned this |}
    | Some _ => this
    end in
  match _fridaTargetsPromise this with
  | Some p =>
      {| _fridaTargetsPromise := _fridaTargetsPromise this;
         lookups := lookups this;
         started := started this;
         awaiting := awaiting this ++ [(caller, p)];
         returned := returned this |}
  | None => this
  end.

(** The lookup [p] settles with [r]: the [finally] callback clears the
    slot, and every caller that awaits the promise gets [r]. *)
Definition settle (p : PromiseId) (r : Hosts) (this : Object) : Object :=
  if existsb (Nat.eqb p) (lookups this) then
    {| _fridaTargetsPromise := None;
       lookups := List.filter (fun q => negb (Nat.eqb p q)) (lookups this);
       started := started this;
       awaiting := List.filter (fun cq => negb (Nat.eqb p (snd cq))) (awaiting this);
       returned :=
         returned this ++
         map (fun cq => (fst cq, r))
           (List.filter (fun cq => Nat.eqb p (snd cq)) (awaiting this)) |}
  else this.

Inductive Step : Type :=
| Calls (caller : Caller)
| Settles (p : PromiseId) (r : Hosts).

Definition step (this : Object) (s : Step) : Object :=
  match s with
  | Calls caller => getFridaHosts caller this
  | Settles p r => settle p r this
  end.

Definition steps (this : Object) (l : list Step) : Object :=
  fold_left step l this.

(** [(await this.getFridaHosts()).length > 0] *)
Definition isActivable (fridaHosts : list FridaHost.t) : bool :=
  Nat.ltb 0 (List.length fridaHosts).

End FridaAndroidInterceptor.

(** ** Describing runs of the host checks *)

(** What follows the settlement of [openTcp] in [isDevicePortOpen]. *)
Definition closing (o : Outcome Conn) : History :=
  match o with
  | Fulfilled conn => [Did (ConnOnError conn); Did (ConnEnd conn)]
  | Rejected _ => []
  end.

(** What [isFridaInstalled] makes of the settlement of [readdir]. *)
Definition installedFrom (o : Outcome (list Entry.t)) : bool :=
  match o with
  | Fulfilled entries =>
      existsb (fun entry =>
                 String.eqb (Entry.name entry) FRIDA_BINARY_NAME &&
                 negb (Z.eqb (Z.land (Entry.mode entry) ALL_X_PERMS) 0))
        entries
  | Rejected _ => false
  end.

Definition hostOf (deviceId : string) (state : HostState) : FridaHost.t :=
  FridaHost.mk deviceId deviceId "android" state None.

(** The history after the two port probes of [getHostStatus], and what
    they returned. *)
Definition portPhase (w : World) (deviceId : string) (h : History)
  : bool * bool * History :=
  let p1 := OpenTcp deviceId FRIDA_DEFAULT_PORT in
  let p2 := OpenTcp deviceId FRIDA_ALTERNATE_PORT in
  let h0 := h ++ [Did (Issue p1); Did (Issue p2)] in
  if first w h0 0%nat then
    let o1 := answer w p1 h0 in
    let h1 := h0 ++ Settled p1 o1 :: closing o1 in
    let o2 := answer w p2 h1 in
    (fulfilled o1, fulfilled o2, h1 ++ Settled p2 o2 :: closing o2)
  else
    let o2 := answer w p2 h0 in
    let h1 := h0 ++ Settled p2 o2 :: closing o2 in
    let o1 := answer w p1 h1 in
    (fulfilled o1, fulfilled o2, h1 ++ Settled p1 o1 :: closing o1).


(** ** Facts about a device *)

(** The port accepts every connection, or refuses every connection. *)
Definition PortOpen (w : World) (deviceId : string) (port : Z) : Prop :=
  forall h, fulfilled (answer w (OpenTcp deviceId port) h) = true.

Definition PortClosed (w : World) (deviceId : string) (port : Z) : Prop :=
  forall h, fulfilled (answer w (OpenTcp deviceId port) h) = false.

(** The check [t] returns [a] whenever it is made. *)
Definition Returns {A} (w : World) (t : Task A) (a : A) : Prop :=
  forall h, fst (run w t h) = Fulfilled a.

(** A world of devices that all look the same and never change: the two
    ports, the entries of the directory of the binary, and whether the
    device looks rooted.  Every other request is rejected. *)
Definition deviceWorld (defaultPortOpen alternatePortOpen : bool)
    (entries : list Entry.t) (rooted : bool) (leftFirst : bool) : World :=
  {| answer := fun c _ =>
       match c return Outcome (RetTy c) with
       | OpenTcp _ port =>
           if (if Z.eqb port FRIDA_DEFAULT_PORT then defaultPortOpen
               else alternatePortOpen)
           then Fulfilled 1%nat
           else Rejected "closed"
       | Readdir _ _ => Fulfilled entries
       | IsProbablyRooted _ => Fulfilled rooted
       | _ => Rejected "unsupported"
       end;
     first := fun _ _ => leftFirst |}.

(** A world in which every device reports the properties [props]; the
    server binary can be fetched and pushed. *)
Definition propertiesWorld (props : gmap string string) : World :=
  {| answer := fun c _ =>
       match c return Outcome (RetTy c) with
       | GetProperties _ => Fulfilled props
       | DownloadFridaServer _ _ _ => Fulfilled 1%nat
       | Push _ _ _ _ => Fulfilled tt
       | _ => Rejected "unsupported"
       end;
     first := fun _ _ => true |}.

(** An ABI is recognized when it is a key of [ABI_ARCH_MAP]. *)
Definition recognized (abi : string) : bool :=
  Str.includes (keys ABI_ARCH_MAP) abi.

(** The same world, with the devices [devices] connected. *)
Definition withDevices (devices : list string) (w : World) : World :=
  {| answer := fun c h =>
       match c return Outcome (RetTy c) with
       | GetConnectedDevices => Fulfilled devices
       | c' => answer w c' h
       end;
     first := first w |}.

(** The same world, where root is to be had through [su] and the shell
    starts what it is given. *)
Definition withRoot (w : World) : World :=
  {| answer := fun c h =>
       match c return Outcome (RetTy c) with
       | GetRootCommand _ => Fulfilled (Some (fun command => "su" :: "-c" :: command))
       | Shell _ _ => Fulfilled 2%nat
       | c' => answer w c' h
       end;
     first := first w |}.

(** ** What a task can be fulfilled with *)

(** Every value that [t] can be fulfilled with satisfies [P], however
    the world answers. *)
Fixpoint yields {A} (P : A -> Prop) (t : Task A) : Prop :=
  match t with
  | Ret a => P a
  | Throw _ => True
  | Act _ t' => yields P t'
  | Wait c k => forall o, yields P (k o)
  | Race l r => yields P l /\ yields P r
  end.

(** ** Counting requests *)

(** How many requests of the kind [kind] are sent in a history. *)
Definition issued (kind : Call -> bool) (h : History) : nat :=
  List.length
    (List.filter (fun ev => match ev with
                            | Did (Issue c) => kind c
                            | _ => false
                            end) h).

(** The first request of every status probe. *)
Definition isStatusProbe (c : Call) : bool :=
  match c with
  | OpenTcp _ port => Z.eqb port FRIDA_DEFAULT_PORT
  | _ => false
  end.



(** ** The readiness probe of Launch *)

(** The probe that [launchAndroidHost] hands to [waitUntil]. *)
Definition readinessProbe (hostId : string) : Task bool :=
  catch
    (let* status := getHostStatus hostId in
     Ret (HostState_eqb (FridaHost.state status) available))
    (fun e => do (ConsoleLog e);; Ret false).


(** ** The invariant of the cached lookup *)

(** Either the slot is empty, no lookup is active and nobody waits; or
    the slot holds the one active lookup, and everybody waits for it. *)
Definition CacheInv (this : FridaAndroidInterceptor.Object) : Prop :=
  match FridaAndroidInterceptor._fridaTargetsPromise this with
  | None =>
      FridaAndroidInterceptor.lookups this = [] /\
      FridaAndroidInterceptor.awaiting this = []
  | Some p =>
      FridaAndroidInterceptor.lookups this = [p] /\
      Forall (fun cq => snd cq = p) (FridaAndroidInterceptor.awaiting this)
  end.

(** A rooted device with the server binary installed, on which the server
    listens on the alternate port once a shell command has started it. *)
Definition serverStartsWorld : World :=
  {| answer := fun c h =>
       match c return Outcome (RetTy c) with
       | OpenTcp _ port =>
           if Z.eqb port FRIDA_ALTERNATE_PORT &&
              existsb (fun ev => match ev with
                                 | Did (Issue (Shell _ _)) => true
                                 | _ => false
                                 end) h
           then Fulfilled 1%nat
           else Rejected "closed"
       | Readdir _ _ => Fulfilled [Entry.mk FRIDA_BINARY_NAME 493]
       | IsProbablyRooted _ => Fulfilled true
       | GetRootCommand _ => Fulfilled (Some (fun command => "su" :: "-c" :: command))
       | Shell _ _ => Fulfilled 2%nat
       | _ => Rejected "unsupported"
       end;
     first := fun _ _ => true |}.

(** ** Describing runs of the Frida session *)

(** A world for the Frida session: which of the two ports take a
    connection (the alternate port gives connection 1, the default port
    connection 2), what the enumeration of the applications gives; the
    session of a connection has its number, scripts are built and
    spawned. *)
Definition sessionWorld (alternatePortOpen defaultPortOpen : bool)
    (apps : Outcome (list FridaTarget.t)) : World :=
  {| answer := fun c _ =>
       match c return Outcome (RetTy c) with
       | OpenTcp _ port =>
           if Z.eqb port FRIDA_ALTERNATE_PORT
           then (if alternatePortOpen then Fulfilled 1%nat else Rejected "alternate closed")
           else (if defaultPortOpen then Fulfilled 2%nat else Rejected "default closed")
       | FridaConnect stream => Fulfilled stream
       | EnumerateApplications _ => apps
       | BuildAndroidFridaScript caCertContent proxyHost _ =>
           Fulfilled ("// " +:+ proxyHost +:+ " " +:+ caCertContent)
       | SpawnWithScript _ _ _ => Fulfilled tt
       | _ => Rejected "unsupported"
       end;
     first := fun _ _ => true |}.

(** ** The synchronous start of a task *)

(** What a task does before it is first suspended, and the task from
    there. *)
Fixpoint syncEffects {A} (t : Task A) : list Effect :=
  match t with
  | Act e t' => e :: syncEffects t'
  | _ => []
  end.

Fixpoint afterSync {A} (t : Task A) : Task A :=
  match t with
  | Act _ t' => afterSync t'
  | _ => t
  end.

Definition suspended {A} (t : Task A) : bool :=
  match t with
  | Wait _ _ | Race _ _ => true
  | _ => false
  end.

Definition settledAtOnce {A} (t : Task A) : bool :=
  match t with
  | Ret _ => true
  | _ => false
  end.

(** The requests with which the status probes of the devices start. *)
Definition probeStarts (devices : list string) : History :=
  flat_map (fun deviceId =>
              [Did (Issue (OpenTcp deviceId FRIDA_DEFAULT_PORT));
               Did (Issue (OpenTcp deviceId FRIDA_ALTERNATE_PORT))]) devices.

(** A world in which nothing answers: every request is rejected. *)
Definition offlineWorld : World :=
  {| answer := fun c _ => Rejected "device offline";
     first := fun _ _ => true |}.

(** ** Strings without white space *)

Fixpoint noWhiteSpace (s : string) : bool :=
  match s with
  | EmptyString => true
  | String c s' => negb (Str.isWhiteSpace c) && noWhiteSpace s'
  end.

(** ** Reading the steps of the cached lookup *)

(** The callers of a sequence of steps, in the order of their calls. *)
Fixpoint callersOf (l : list FridaAndroidInterceptor.Step)
  : list FridaAndroidInterceptor.Caller :=
  match l with
  | [] => []
  | FridaAndroidInterceptor.Calls caller :: l' => caller :: callersOf l'
  | FridaAndroidInterceptor.Settles _ _ :: l' => callersOf l'
  end.

(** ** prepare.ts *)

(** [ToInt32], which the bitwise operators of JavaScript apply to their
    operands. *)
Definition toInt32 (z : Z) : Z :=
  let m := z mod 2 ^ 32 in
  if Z.ltb m (2 ^ 31) then m else m - 2 ^ 32.

(** [a | b] *)
Definition bitOr (a b : Z) : Z := Z.lor (toInt32 a) (toInt32 b).

(** What [klaw] reports of a file: whether it is a directory, and its
    mode. *)
Module Stats.
Record t : Type := mk { isDirectory : bool; mode : Z }.
End Stats.

(** The mode that the override files are given, so that they are readable
    (and the directories executable) for everybody. *)
Definition chmodMode (stats : Stats.t) : Z :=
  if Stats.isDirectory stats
  then bitOr (Stats.mode stats) 5 (* Set o+rx *)
  else bitOr (Stats.mode stats) 4 (* Set o+r *).

(** A world that answers the request for root with [root] and every shell
    command with [shell], and rejects everything else. *)
Definition rootWorld (root : Outcome (option RootCommand)) (shell : Outcome Stream)
  : World :=
  {| answer := fun c _ =>
       match c return Outcome (RetTy c) with
       | GetRootCommand _ => root
       | Shell _ _ => shell
       | _ => Rejected "unsupported"
       end;
     first := fun _ _ => true |}.

(** ** Where the rejections of a task come from *)

(** Every rejection of [t] repeats the rejection of a request of the kind
    [blamed] that the task has seen: [seen] lists the rejected requests
    so far, with their errors. *)
Fixpoint rejectionsFrom {A} (blamed : Call -> bool) (seen : list (Call * Error))
    (t : Task A) : Prop :=
  match t with
  | Ret _ => True
  | Throw e => exists c, blamed c = true /\ In (c, e) seen
  | Act _ t' => rejectionsFrom blamed seen t'
  | Wait c k =>
      forall o,
        rejectionsFrom blamed
          match o with
          | Rejected e => (c, e) :: seen
          | Fulfilled _ => seen
          end
          (k o)
  | Race l r => rejectionsFrom blamed seen l /\ rejectionsFrom blamed seen r
  end.

(** The requests whose failure makes discovery fail. *)
Definition failsDiscovery (c : Call) : bool :=
  match c with
  | GetConnectedDevices | IsProbablyRooted _ => true
  | _ => false
  end.

(** ** Launch around the poll *)

(** [launchAndroidHost] with the [waitUntil] that it imports as a
    parameter: [../../util/promise] is not among the sources, and what
    Launch does before and after the poll does not depend on it. *)
Section LaunchAround.

Variable waitUntil : Z -> nat -> Task bool -> Task unit.

Definition launchAndroidHostWith (hostId : string) : Task unit :=
  let deviceClient := getDevice hostId in
  let* runAsRoot := call (GetRootCommand deviceClient) in
  match runAsRoot with
  | None => Throw "Couldn't get root access to launch Frida Server"
  | Some runAsRoot =>
      let* fridaServerStream :=
        call (Shell deviceClient
                (runAsRoot [FRIDA_BINARY_PATH; "-l";
                            "127.0.0.1:" +:+ pretty FRIDA_ALTERNATE_PORT])) in
      do (Pipe fridaServerStream);;
      (* Wait until the server becomes accessible *)
      catch
        (waitUntil 500 10
           (catch
              (let* status := getHostStatus hostId in
               Ret (HostState_eqb (FridaHost.state status) available))
              (fun e => do (ConsoleLog e);; Ret false)))
        (fun e =>
           do (ConsoleLog e);;
           Throw ("Failed to launch Frida server for " +:+ hostId))
  end.

End LaunchAround.

(** ** What an error message says *)


(** * Properties *)

(** ** Running composed tasks *)

Lemma exec_bind {A B} (w : World) (t : Task A) (f : A -> Task B) h n :
  exec w (bind t f) h n =
    let '(o, h', n') := exec w t h n in
    match o with
    | Fulfilled a => exec w (f a) h' n'
    | Rejected e => (Rejected e, h', n')
    end.
Proof.
  revert h n; induction t as [a|e|e t IH|c k IH|l IHl r IHr]; intros h n;
    cbn [bind exec]; auto.
  destruct (first w h n); auto.
Qed.

Lemma exec_catch {A} (w : World) (t : Task A) (handler : Error -> Task A) h n :
  exec w (catch t handler) h n =
    let '(o, h', n') := exec w t h n in
    match o with
    | Fulfilled a => (Fulfilled a, h', n')
    | Rejected e => exec w (handler e) h' n'
    end.
Proof.
  revert h n; induction t as [a|e|e t IH|c k IH|l IHl r IHr]; intros h n;
    cbn [catch exec]; auto.
  destruct (first w h n); auto.
Qed.

Lemma exec_call (w : World) (c : Call) h n :
  exec w (call c) h n =
    let o := answer w c (h ++ [Did (Issue c)]) in
    (o, h ++ [Did (Issue c); Settled c o], 0%nat).
Proof.
  cbn. destruct (answer w c (h ++ [Did (Issue c)])); rewrite <- app_assoc; reflexivity.
Qed.

(** ** The checks of the host state *)

Lemma exec_isDevicePortOpen (w : World) deviceClient port h n :
  let c := OpenTcp deviceClient port in
  let o := answer w c (h ++ [Did (Issue c)]) in
  exec w (isDevicePortOpen deviceClient port) h n =
    (Fulfilled (fulfilled o), h ++ [Did (Issue c); Settled c o] ++ closing o, 0%nat).
Proof.
  intros c o. unfold isDevicePortOpen. cbn. fold c. fold o.
  destruct o as [conn|e]; cbn; rewrite <- ?app_assoc; reflexivity.
Qed.

(** C7.  The port probe never throws.  It sends one [openTcp] request; if
    the connection opens it registers an empty error handler on it, ends
    it and returns true; whatever makes the request fail, it returns
    false. *)
Theorem isDevicePortOpen_never_throws (w : World) deviceClient port h :
  let c := OpenTcp deviceClient port in
  let o := answer w c (h ++ [Did (Issue c)]) in
  run w (isDevicePortOpen deviceClient port) h =
    (Fulfilled (fulfilled o),
     h ++ [Did (Issue c); Settled c o] ++
       match o with
       | Fulfilled conn => [Did (ConnOnError conn); Did (ConnEnd conn)]
       | Rejected _ => []
       end).
Proof.
  intros c o. unfold run. rewrite exec_isDevicePortOpen. reflexivity.
Qed.

Example isDevicePortOpen_open :
  run (deviceWorld true false [] false true)
      (isDevicePortOpen "emulator-5554" FRIDA_DEFAULT_PORT) [] =
    (Fulfilled true,
     [Did (Issue (OpenTcp "emulator-5554" 27042));
      Settled (OpenTcp "emulator-5554" 27042) (Fulfilled 1%nat);
      Did (ConnOnError 1%nat); Did (ConnEnd 1%nat)]).
Proof. reflexivity. Qed.

Example isDevicePortOpen_closed :
  run (deviceWorld true false [] false true)
      (isDevicePortOpen "emulator-5554" FRIDA_ALTERNATE_PORT) [] =
    (Fulfilled false,
     [Did (Issue (OpenTcp "emulator-5554" 24072));
      Settled (OpenTcp "emulator-5554" 24072) (Rejected "closed")]).
Proof. reflexivity. Qed.

Lemma exec_isFridaInstalled (w : World) deviceClient h n :
  let c := Readdir deviceClient ANDROID_DEVICE_HTK_PATH in
  let o := answer w c (h ++ [Did (Issue c)]) in
  exec w (isFridaInstalled deviceClient) h n =
    (Fulfilled (installedFrom o), h ++ [Did (Issue c); Settled c o], 0%nat).
Proof.
  intros c o. unfold isFridaInstalled. cbn. fold c. fold o.
  destruct o as [entries|e]; cbn; rewrite <- ?app_assoc; reflexivity.
Qed.

(** The binary counts as installed when some execute bit is set. *)
Example installed_when_executable :
  installedFrom (Fulfilled [Entry.mk "re.frida.server" 493; Entry.mk "adirf-server" 365]) = true /\
  installedFrom (Fulfilled [Entry.mk "adirf-server" 420]) = false /\
  installedFrom (Fulfilled [Entry.mk "frida-server" 493]) = false /\
  installedFrom (Rejected "No such file or directory") = false.
Proof. repeat split. Qed.

(** The two port probes: both requests go out, then they settle in the
    order the world chooses. *)
Lemma exec_port_probes (w : World) deviceClient h n :
  let p1 := OpenTcp deviceClient FRIDA_DEFAULT_PORT in
  let p2 := OpenTcp deviceClient FRIDA_ALTERNATE_PORT in
  let h0 := h ++ [Did (Issue p1); Did (Issue p2)] in
  exec w (all2 (isDevicePortOpen deviceClient FRIDA_DEFAULT_PORT)
               (isDevicePortOpen deviceClient FRIDA_ALTERNATE_PORT)) h n =
    if first w h0 0%nat then
      let o1 := answer w p1 h0 in
      let h1 := h0 ++ Settled p1 o1 :: closing o1 in
      let o2 := answer w p2 h1 in
      (Fulfilled (fulfilled o1, fulfilled o2), h1 ++ Settled p2 o2 :: closing o2, 0%nat)
    else
      let o2 := answer w p2 h0 in
      let h1 := h0 ++ Settled p2 o2 :: closing o2 in
      let o1 := answer w p1 h1 in
      (Fulfilled (fulfilled o1, fulfilled o2), h1 ++ Settled p1 o1 :: closing o1, 0%nat).
Proof.
  intros p1 p2 h0. unfold isDevicePortOpen. cbn.
  fold p1. fold p2. rewrite <- app_assoc. cbn. fold h0.
  destruct (first w h0 0).
  - destruct (answer w p1 h0) as [c1|e1]; cbn; rewrite <- ?app_assoc; cbn [app];
      match goal with |- context [answer w p2 ?h'] =>
        destruct (answer w p2 h') as [c2|e2] end;
      cbn; rewrite <- ?app_assoc; reflexivity.
  - destruct (answer w p2 h0) as [c2|e2]; cbn; rewrite <- ?app_assoc; cbn [app];
      match goal with |- context [answer w p1 ?h'] =>
        destruct (answer w p1 h') as [c1|e1] end;
      cbn; rewrite <- ?app_assoc; reflexivity.
Qed.

Lemma exec_later_checks (w : World) deviceId h n :
  let rd := Readdir deviceId ANDROID_DEVICE_HTK_PATH in
  let rt := IsProbablyRooted deviceId in
  exec w
    (let* installed := isFridaInstalled deviceId in
     if installed then Ret launch_required
     else
       let* rooted := isProbablyRooted deviceId in
       if rooted then Ret setup_required else Ret unavailable) h n =
    let o3 := answer w rd (h ++ [Did (Issue rd)]) in
    let h3 := h ++ [Did (Issue rd); Settled rd o3] in
    if installedFrom o3
    then (Fulfilled launch_required, h3, 0%nat)
    else
      let o4 := answer w rt (h3 ++ [Did (Issue rt)]) in
      let h4 := h3 ++ [Did (Issue rt); Settled rt o4] in
      match o4 with
      | Fulfilled true => (Fulfilled setup_required, h4, 0%nat)
      | Fulfilled false => (Fulfilled unavailable, h4, 0%nat)
      | Rejected e => (Rejected e, h4, 0%nat)
      end.
Proof.
  intros rd rt. rewrite exec_bind, exec_isFridaInstalled. cbv zeta. fold rd.
  destruct (installedFrom _); [reflexivity|].
  rewrite exec_bind. unfold isProbablyRooted. rewrite (exec_call w rt). cbv zeta.
  destruct (answer w rt _) as [[|]|e]; reflexivity.
Qed.

Lemma exec_getHostStatus (w : World) deviceId h n :
  let rd := Readdir deviceId ANDROID_DEVICE_HTK_PATH in
  let rt := IsProbablyRooted deviceId in
  exec w (getHostStatus deviceId) h n =
    let '(defaultPortOpen, alternatePortOpen, h2) := portPhase w deviceId h in
    if defaultPortOpen || alternatePortOpen
    then (Fulfilled (hostOf deviceId available), h2, 0%nat)
    else
      let o3 := answer w rd (h2 ++ [Did (Issue rd)]) in
      let h3 := h2 ++ [Did (Issue rd); Settled rd o3] in
      if installedFrom o3
      then (Fulfilled (hostOf deviceId launch_required), h3, 0%nat)
      else
        let o4 := answer w rt (h3 ++ [Did (Issue rt)]) in
        let h4 := h3 ++ [Did (Issue rt); Settled rt o4] in
        match o4 with
        | Fulfilled true => (Fulfilled (hostOf deviceId setup_required), h4, 0%nat)
        | Fulfilled false => (Fulfilled (hostOf deviceId unavailable), h4, 0%nat)
        | Rejected e => (Rejected e, h4, 0%nat)
        end.
Proof.
  intros rd rt. unfold getHostStatus, getDevice, portPhase.
  rewrite exec_bind, exec_port_probes.
  destruct (first w _ 0); cbv zeta;
    match goal with |- context [(Fulfilled (fulfilled ?o1, fulfilled ?o2), ?h2, _)] =>
      generalize h2; destruct (fulfilled o1), (fulfilled o2); intros h2'
    end;
    cbn [orb]; try reflexivity;
    rewrite exec_bind, exec_later_checks; cbv zeta; fold rd; fold rt;
    destruct (installedFrom _); try reflexivity;
    destruct (answer w rt _) as [[|]|e]; reflexivity.
Qed.

(** ** The host state *)

(** C1.  The state of a device follows four cases in a fixed order: if
    the default or the alternate Frida port is open the state is
    [available], whatever the other checks would say; else if the
    installed check is true it is [launch_required], whatever the rooted
    check would say; else if the rooted check is true it is
    [setup_required]; else it is [unavailable]. *)
Theorem getHostStatus_precedence (w : World) (deviceId : string) (h : History) :
  let resolved := fst (run w (getHostStatus deviceId) h) in
  let open := PortOpen w deviceId in
  let closed := PortClosed w deviceId in
  let installed := Returns w (isFridaInstalled deviceId) in
  let rooted := Returns w (isProbablyRooted deviceId) in
  (open FRIDA_DEFAULT_PORT \/ open FRIDA_ALTERNATE_PORT ->
   resolved = Fulfilled (hostOf deviceId available)) /\
  (closed FRIDA_DEFAULT_PORT -> closed FRIDA_ALTERNATE_PORT ->
   installed true ->
   resolved = Fulfilled (hostOf deviceId launch_required)) /\
  (closed FRIDA_DEFAULT_PORT -> closed FRIDA_ALTERNATE_PORT ->
   installed false -> rooted true ->
   resolved = Fulfilled (hostOf deviceId setup_required)) /\
  (closed FRIDA_DEFAULT_PORT -> closed FRIDA_ALTERNATE_PORT ->
   installed false -> rooted false ->
   resolved = Fulfilled (hostOf deviceId unavailable)).
Proof.
  intros resolved open closed installed rooted.
  assert (Hinst : forall b, installed b -> forall h',
            installedFrom (answer w (Readdir deviceId ANDROID_DEVICE_HTK_PATH)
              (h' ++ [Did (Issue (Readdir deviceId ANDROID_DEVICE_HTK_PATH))])) = b).
  { intros b Hb h'. specialize (Hb h'). unfold run in Hb.
    rewrite exec_isFridaInstalled in Hb. cbn in Hb. congruence. }
  assert (Hroot : forall b, rooted b -> forall h',
            answer w (IsProbablyRooted deviceId)
              (h' ++ [Did (Issue (IsProbablyRooted deviceId))]) = Fulfilled b).
  { intros b Hb h'. specialize (Hb h'). unfold run, isProbablyRooted in Hb.
    rewrite (exec_call w (IsProbablyRooted deviceId)) in Hb. exact Hb. }
  subst resolved. unfold run. rewrite exec_getHostStatus. unfold portPhase.
  cbv zeta.
  repeat split.
  - intros Hopen. destruct (first w _ 0).
    + destruct Hopen as [H1|H2]; [rewrite H1 | rewrite H2, orb_true_r]; reflexivity.
    + destruct Hopen as [H1|H2]; [rewrite H1 | rewrite H2, orb_true_r]; reflexivity.
  - intros H1 H2 Hi. destruct (first w _ 0);
      rewrite H1, H2, (Hinst true Hi); reflexivity.
  - intros H1 H2 Hi Hr. destruct (first w _ 0);
      rewrite H1, H2, (Hinst false Hi), (Hroot true Hr); reflexivity.
  - intros H1 H2 Hi Hr. destruct (first w _ 0);
      rewrite H1, H2, (Hinst false Hi), (Hroot false Hr); reflexivity.
Qed.

Lemma getHostStatus_precedence_witness :
  let emulator := "emulator-5554" in
  let binary := Entry.mk FRIDA_BINARY_NAME 493 in
  fst (run (deviceWorld false true [] false true) (getHostStatus emulator) [])
    = Fulfilled (hostOf emulator available) /\
  fst (run (deviceWorld false false [binary] true true) (getHostStatus emulator) [])
    = Fulfilled (hostOf emulator launch_required) /\
  fst (run (deviceWorld false false [] true false) (getHostStatus emulator) [])
    = Fulfilled (hostOf emulator setup_required) /\
  fst (run (deviceWorld false false [] false false) (getHostStatus emulator) [])
    = Fulfilled (hostOf emulator unavailable).
Proof.
  intros emulator binary. split; [|split; [|split]].
  - apply (proj1 (getHostStatus_precedence
                    (deviceWorld false true [] false true) emulator [])).
    right. intros h. reflexivity.
  - apply (proj1 (proj2 (getHostStatus_precedence
                    (deviceWorld false false [binary] true true) emulator [])));
      intros h; reflexivity.
  - apply (proj1 (proj2 (proj2 (getHostStatus_precedence
                    (deviceWorld false false [] true false) emulator []))));
      intros h; reflexivity.
  - apply (proj2 (proj2 (proj2 (getHostStatus_precedence
                    (deviceWorld false false [] false false) emulator []))));
      intros h; reflexivity.
Defined.

(** ** The order of the checks *)

Lemma Settled_inj (c : Call) (o o' : Outcome (RetTy c)) :
  Settled c o = Settled c o' -> o = o'.
Proof.
  intros H. inversion H as [H'].
  apply (inj_pair2_eq_dec Call Call_eq_dec) in H'. exact H'.
Qed.

Ltac event_eq :=
  repeat match goal with
    | H : _ \/ _ |- _ => destruct H
    | H : _ /\ _ |- _ => destruct H
    | H : ex _ |- _ => destruct H
    | H : False |- _ => destruct H
    | H : Did _ = Settled _ _ |- _ => discriminate H
    | H : Settled _ _ = Did _ |- _ => discriminate H
    | H : Did ?a = Did ?a |- _ => clear H
    | H : Did _ = Did _ |- _ => discriminate H
    | H : Settled ?c _ = Settled ?c _ |- _ => apply Settled_inj in H; subst
    | H : Settled _ _ = Settled _ _ |- _ => solve [inversion H]
    end.

Ltac solve_order :=
  repeat split; unfold not; intros; event_eq; try discriminate; try congruence;
  eauto 12.

(** C6.  Within the resolution of one device, the two port probes run
    concurrently: both requests are sent before either settles.  Each
    later check is made only on the negative result of what came before:
    the installed check exactly when both probes returned false, the
    rooted check exactly when moreover the installed check returned false;
    an installed check that returns true is never followed by the rooted
    check. *)
Theorem getHostStatus_checks_in_series (w : World) (deviceId : string) (h : History) :
  let p1 := OpenTcp deviceId FRIDA_DEFAULT_PORT in
  let p2 := OpenTcp deviceId FRIDA_ALTERNATE_PORT in
  let rd := Readdir deviceId ANDROID_DEVICE_HTK_PATH in
  let rt := IsProbablyRooted deviceId in
  exists (o1 o2 : Outcome Conn) (rest : History),
    snd (run w (getHostStatus deviceId) h)
      = h ++ Did (Issue p1) :: Did (Issue p2) :: rest /\
    In (Settled p1 o1) rest /\
    In (Settled p2 o2) rest /\
    (In (Did (Issue rd)) rest <->
       fulfilled o1 = false /\ fulfilled o2 = false) /\
    (In (Did (Issue rt)) rest <->
       fulfilled o1 = false /\ fulfilled o2 = false /\
       exists o3, In (Settled rd o3) rest /\ installedFrom o3 = false) /\
    (forall o3, In (Settled rd o3) rest -> installedFrom o3 = true ->
       ~ In (Did (Issue rt)) rest).
Proof.
  intros p1 p2 rd rt. unfold run. rewrite exec_getHostStatus.
  unfold portPhase. cbv zeta. fold p1 p2 rd rt.
  set (h0 := h ++ [Did (Issue p1); Did (Issue p2)]).
  destruct (first w h0 0).
  - set (o1 := answer w p1 h0).
    set (o2 := answer w p2 _).
    set (o3 := answer w rd _).
    set (o4 := answer w rt _).
    exists o1, o2.
    clearbody o4; clearbody o3; clearbody o2; clearbody o1.
    subst h0 p1 p2 rd rt.
    destruct o1 as [c1|e1], o2 as [c2|e2]; cbn [fulfilled orb closing];
      try destruct (installedFrom o3) eqn:Hinst; try destruct o4 as [[|]|e4];
      cbn [fst snd]; rewrite <- ?app_assoc; cbn [app];
      (eexists; split; [reflexivity|]); cbn [In]; solve_order.
  - set (o2 := answer w p2 h0).
    set (o1 := answer w p1 _).
    set (o3 := answer w rd _).
    set (o4 := answer w rt _).
    exists o1, o2.
    clearbody o4; clearbody o3; clearbody o1; clearbody o2.
    subst h0 p1 p2 rd rt.
    destruct o1 as [c1|e1], o2 as [c2|e2]; cbn [fulfilled orb closing];
      try destruct (installedFrom o3) eqn:Hinst; try destruct o4 as [[|]|e4];
      cbn [fst snd]; rewrite <- ?app_assoc; cbn [app];
      (eexists; split; [reflexivity|]); cbn [In]; solve_order.
Qed.

(** The two probes settle in either order, as the world has it. *)
Example getHostStatus_default_port_settles_first :
  snd (run (deviceWorld false true [] false true) (getHostStatus "emulator-5554") []) =
    [Did (Issue (OpenTcp "emulator-5554" 27042));
     Did (Issue (OpenTcp "emulator-5554" 24072));
     Settled (OpenTcp "emulator-5554" 27042) (Rejected "closed");
     Settled (OpenTcp "emulator-5554" 24072) (Fulfilled 1%nat);
     Did (ConnOnError 1%nat); Did (ConnEnd 1%nat)].
Proof. reflexivity. Qed.

Example getHostStatus_alternate_port_settles_first :
  snd (run (deviceWorld false true [] false false) (getHostStatus "emulator-5554") []) =
    [Did (Issue (OpenTcp "emulator-5554" 27042));
     Did (Issue (OpenTcp "emulator-5554" 24072));
     Settled (OpenTcp "emulator-5554" 24072) (Fulfilled 1%nat);
     Did (ConnOnError 1%nat); Did (ConnEnd 1%nat);
     Settled (OpenTcp "emulator-5554" 27042) (Rejected "closed")].
Proof. reflexivity. Qed.

(** ** Install *)

Example split_trim_example :
  map Str.trim (Str.split "," "arm64-v8a, armeabi-v7a ,armeabi") =
    ["arm64-v8a"; "armeabi-v7a"; "armeabi"] /\
  Str.split "," EmptyString = [EmptyString] /\
  Str.join "," ["mips"; "riscv64"] = "mips,riscv64".
Proof. repeat split. Qed.

Lemma includes_keys_get {V} (m : list (string * V)) (key : string) :
  Str.includes (keys m) key = true -> exists v, get m key = Some v.
Proof.
  unfold Str.includes, keys. induction m as [|[k v] m IH]; cbn; [discriminate|].
  rewrite (String.eqb_sym key k). destruct (String.eqb k key); eauto.
Qed.

Lemma recognized_not_falsy (abi : string) :
  recognized abi = true -> falsy (Some abi) = false.
Proof.
  intros H. cbn. destruct (String.eqb_spec abi EmptyString); [subst; discriminate H|reflexivity].
Qed.

Lemma firstKnownAbiOf_skips (unknown : list string) (abi : string) (rest : list string) :
  Forall (fun a => recognized a = false) unknown ->
  recognized abi = true ->
  firstKnownAbiOf (unknown ++ abi :: rest) = Some abi.
Proof.
  unfold firstKnownAbiOf. fold recognized.
  induction 1 as [|a unknown Ha _ IH]; intros Habi; cbn [app find].
  - change (Str.includes (keys ABI_ARCH_MAP) abi) with (recognized abi).
    rewrite Habi. reflexivity.
  - change (Str.includes (keys ABI_ARCH_MAP) a) with (recognized a).
    rewrite Ha. auto.
Qed.

Lemma firstKnownAbiOf_none (abis : list string) :
  Forall (fun a => recognized a = false) abis ->
  firstKnownAbiOf abis = None.
Proof.
  unfold firstKnownAbiOf.
  induction 1 as [|a abis Ha _ IH]; cbn [find]; [reflexivity|].
  change (Str.includes (keys ABI_ARCH_MAP) a) with (recognized a).
  rewrite Ha. exact IH.
Qed.

(** [setupAndroidHost] once the device has reported its properties. *)
Lemma exec_setupAndroidHost (w : World) hostId h n props abis :
  let gp := GetProperties hostId in
  answer w gp (h ++ [Did (Issue gp)]) = Fulfilled props ->
  supportedAbisOf props = Ret abis ->
  exec w (setupAndroidHost hostId) h n =
    let h1 := h ++ [Did (Issue gp); Settled gp (Fulfilled props)] in
    if falsy (firstKnownAbiOf abis)
    then (Rejected ("Did not recognize any device ABIs from " +:+ Str.join "," abis),
          h1, 0%nat)
    else
      exec w
        (let* serverStream :=
           call (DownloadFridaServer FRIDA_VERSION "android"
                   (get ABI_ARCH_MAP (default EmptyString (firstKnownAbiOf abis)))) in
         call (Push hostId serverStream FRIDA_BINARY_PATH 365)) h1 0%nat.
Proof.
  intros gp Hprops Habis. unfold setupAndroidHost, getDevice.
  rewrite exec_bind, (exec_call w gp). cbv zeta. rewrite Hprops.
  rewrite exec_bind, Habis. cbn [exec].
  destruct (falsy (firstKnownAbiOf abis)); reflexivity.
Qed.

Lemma exec_setupAndroidHost_unrecognized (w : World) hostId h n props abis :
  let gp := GetProperties hostId in
  answer w gp (h ++ [Did (Issue gp)]) = Fulfilled props ->
  supportedAbisOf props = Ret abis ->
  Forall (fun a => recognized a = false) abis ->
  exec w (setupAndroidHost hostId) h n =
    (Rejected ("Did not recognize any device ABIs from " +:+ Str.join "," abis),
     h ++ [Did (Issue gp); Settled gp (Fulfilled props)], 0%nat).
Proof.
  intros gp Hprops Habis Hnone.
  rewrite (exec_setupAndroidHost w hostId h n props abis Hprops Habis).
  rewrite (firstKnownAbiOf_none abis Hnone). reflexivity.
Qed.

(** The trace of the fetch and push that follow the choice of [arch]. *)
Lemma exec_fetch_and_push (w : World) hostId arch h n :
  let dl := DownloadFridaServer FRIDA_VERSION "android" arch in
  exists tail,
    snd (fst (exec w
      (let* serverStream := call dl in
       call (Push hostId serverStream FRIDA_BINARY_PATH 365)) h n))
      = h ++ Did (Issue dl) :: tail /\
    forall version platform arch',
      ~ In (Did (Issue (DownloadFridaServer version platform arch'))) tail.
Proof.
  intros dl. rewrite exec_bind, (exec_call w dl). cbv zeta.
  destruct (answer w dl _) as [stream|e].
  - rewrite (exec_call w (Push hostId stream FRIDA_BINARY_PATH 365)). cbv zeta.
    cbn [fst snd]. rewrite <- app_assoc. cbn [app].
    eexists. split; [reflexivity|].
    intros version platform arch' Hin. cbn [In] in Hin. event_eq.
  - cbn [fst snd]. eexists. split; [reflexivity|].
    intros version platform arch' Hin. cbn [In] in Hin. event_eq.
Qed.



(** C4.  When none of the ABIs the device reports is recognized, Install
    fails with an error that names the reported list, and it has sent no
    request but the one for the properties: no binary is fetched, nothing
    is pushed to the device, no architecture is guessed. *)
Theorem setupAndroidHost_unrecognized_abis (w : World) hostId h props abis :
  let gp := GetProperties hostId in
  answer w gp (h ++ [Did (Issue gp)]) = Fulfilled props ->
  supportedAbisOf props = Ret abis ->
  Forall (fun a => recognized a = false) abis ->
  run w (setupAndroidHost hostId) h =
    (Rejected ("Did not recognize any device ABIs from " +:+ Str.join "," abis),
     h ++ [Did (Issue gp); Settled gp (Fulfilled props)]) /\
  forall c, In (Did (Issue c)) (snd (run w (setupAndroidHost hostId) h)) ->
            In (Did (Issue c)) h \/ c = gp.
Proof.
  intros gp Hprops Habis Hnone. unfold run.
  rewrite (exec_setupAndroidHost_unrecognized w hostId h 0 props abis Hprops Habis Hnone).
  cbn [fst snd]. split; [reflexivity|].
  intros c Hin. apply in_app_or in Hin. destruct Hin as [Hin|Hin]; [left; exact Hin|].
  right. cbn [In] in Hin. destruct Hin as [Hin|[Hin|[]]]; [|discriminate Hin].
  injection Hin as <-. reflexivity.
Qed.

Lemma setupAndroidHost_unrecognized_abis_witness :
  let props : gmap string string := {[ "ro.product.cpu.abilist" := "mips,riscv64" ]} in
  run (propertiesWorld props) (setupAndroidHost "emulator-5554") [] =
    (Rejected "Did not recognize any device ABIs from mips,riscv64",
     [Did (Issue (GetProperties "emulator-5554"));
      Settled (GetProperties "emulator-5554") (Fulfilled props)]).
Proof.
  intros props.
  apply (setupAndroidHost_unrecognized_abis
           (propertiesWorld props) "emulator-5554" [] props ["mips"; "riscv64"]).
  - reflexivity.
  - vm_compute. reflexivity.
  - repeat constructor.
Defined.

(** C9.  A device whose ABI list is exactly [armeabi-v7a], the standard
    name of 32-bit ARM v7, fails Install with the unrecognized
    architecture error: the keys of [ABI_ARCH_MAP] are [arm64-v8a],
    [armeabi], [armabi-v7a], [x86] and [x86_64], and [armeabi-v7a] is none
    of them. *)
Theorem setupAndroidHost_armeabi_v7a (w : World) hostId h props :
  let gp := GetProperties hostId in
  answer w gp (h ++ [Did (Issue gp)]) = Fulfilled props ->
  supportedAbisOf props = Ret ["armeabi-v7a"] ->
  run w (setupAndroidHost hostId) h =
    (Rejected "Did not recognize any device ABIs from armeabi-v7a",
     h ++ [Did (Issue gp); Settled gp (Fulfilled props)]) /\
  keys ABI_ARCH_MAP = ["arm64-v8a"; "armeabi"; "armabi-v7a"; "x86"; "x86_64"] /\
  get ABI_ARCH_MAP "armeabi-v7a" = None.
Proof.
  intros gp Hprops Habis. unfold run.
  rewrite (exec_setupAndroidHost_unrecognized w hostId h 0 props _ Hprops Habis).
  - repeat split.
  - repeat constructor.
Qed.

Lemma setupAndroidHost_armeabi_v7a_witness :
  let props : gmap string string := {[ "ro.product.cpu.abilist" := "armeabi-v7a" ]} in
  run (propertiesWorld props) (setupAndroidHost "emulator-5554") [] =
    (Rejected "Did not recognize any device ABIs from armeabi-v7a",
     [Did (Issue (GetProperties "emulator-5554"));
      Settled (GetProperties "emulator-5554") (Fulfilled props)]).
Proof.
  intros props.
  apply (setupAndroidHost_armeabi_v7a
           (propertiesWorld props) "emulator-5554" [] props).
  - reflexivity.
  - vm_compute. reflexivity.
Defined.

(** ** Activation *)

Lemma strictEq_ne (x : option string) (s : string) :
  x <> Some s -> FridaAndroidInterceptor.strictEq x s = false.
Proof.
  destruct x as [x|]; cbn; [|reflexivity].
  intros Hne. destruct (String.eqb_spec x s); [subst; congruence|reflexivity].
Qed.

(** C8.  When the action of [activate] is none of [setup], [launch] and
    [intercept], the call is rejected with the unknown command error, and
    that is all it does: none of the three operations is started, no
    request is sent. *)
Theorem activate_unknown_action (timeoutError : Error) (config : HtkConfig)
    (proxyPort : Z) (options : FridaAndroidInterceptor.Options) :
  let action := FridaAndroidInterceptor.action options in
  let unknown := "Unknown Frida interception command: " +:+ default "(none)" action in
  action <> Some "setup" -> action <> Some "launch" -> action <> Some "intercept" ->
  FridaAndroidInterceptor.activate timeoutError config proxyPort options
    = Throw unknown /\
  forall (w : World) (h : History),
    run w (FridaAndroidInterceptor.activate timeoutError config proxyPort options) h
      = (Rejected unknown, h).
Proof.
  intros action unknown Hs Hl Hi.
  assert (E : FridaAndroidInterceptor.activate timeoutError config proxyPort options
              = Throw unknown).
  { unfold FridaAndroidInterceptor.activate. fold action.
    rewrite (strictEq_ne _ _ Hs), (strictEq_ne _ _ Hl), (strictEq_ne _ _ Hi).
    reflexivity. }
  split; [exact E|]. intros w h. rewrite E. reflexivity.
Qed.

Lemma activate_unknown_action_witness :
  let options :=
    {| FridaAndroidInterceptor.action := Some "attach";
       FridaAndroidInterceptor.hostId := "emulator-5554";
       FridaAndroidInterceptor.targetId := "com.example.app" |} in
  FridaAndroidInterceptor.activate "Wait loop failed" {| https_certContent := "-----BEGIN CERTIFICATE-----" |} 8000 options
    = Throw "Unknown Frida interception command: attach".
Proof.
  intros options.
  apply (activate_unknown_action "Wait loop failed" {| https_certContent := "-----BEGIN CERTIFICATE-----" |} 8000 options);
    discriminate.
Defined.

(** ** Discovery *)

Lemma yields_mono {A} (P Q : A -> Prop) (t : Task A) :
  (forall a, P a -> Q a) -> yields P t -> yields Q t.
Proof.
  intros HPQ. induction t as [a|e|e t IH|c k IH|l IHl r IHr]; cbn; auto.
  intros [Hl Hr]. auto.
Qed.

Lemma yields_bind {A B} (Q : B -> Prop) (t : Task A) (f : A -> Task B) :
  yields (fun a => yields Q (f a)) t -> yields Q (bind t f).
Proof.
  induction t as [a|e|e t IH|c k IH|l IHl r IHr]; cbn; auto.
  intros [Hl Hr]. auto.
Qed.

Lemma yields_catch {A} (P : A -> Prop) (t : Task A) (handler : Error -> Task A) :
  yields P t -> (forall e, yields P (handler e)) -> yields P (catch t handler).
Proof.
  intros Ht Hh. induction t as [a|e|e t IH|c k IH|l IHl r IHr]; cbn in *; auto.
  destruct Ht. auto.
Qed.

Lemma yields_started {A B} (P : A -> Prop) (t : Task B) (e : Error) :
  yields P (started t e : Task A).
Proof. induction t; cbn; auto. Qed.

Lemma yields_exec {A} (P : A -> Prop) (w : World) (t : Task A) h n a h' n' :
  yields P t -> exec w t h n = (Fulfilled a, h', n') -> P a.
Proof.
  revert h n. induction t as [a0|e|e t IH|c k IH|l IHl r IHr]; cbn; intros h n Ht Hrun.
  - congruence.
  - discriminate.
  - eauto.
  - eauto.
  - destruct Ht. destruct (first w h n); eauto.
Qed.

Lemma yields_pair_l {A B} (P : A -> Prop) (Q : B -> Prop) (a : A) (t2 : Task B) :
  P a -> yields Q t2 ->
  yields (fun ab => P (fst ab) /\ Q (snd ab)) (bind t2 (fun b => Ret (a, b))).
Proof.
  intros Ha H2. apply yields_bind. eapply yields_mono; [|exact H2]. cbn. auto.
Qed.

Lemma yields_pair_r {A B} (P : A -> Prop) (Q : B -> Prop) (t1 : Task A) (b : B) :
  yields P t1 -> Q b ->
  yields (fun ab => P (fst ab) /\ Q (snd ab)) (bind t1 (fun a => Ret (a, b))).
Proof.
  intros H1 Hb. apply yields_bind. eapply yields_mono; [|exact H1]. cbn. auto.
Qed.

Lemma yields_all2 {A B} (P : A -> Prop) (Q : B -> Prop) (t1 : Task A) (t2 : Task B) :
  yields P t1 -> yields Q t2 ->
  yields (fun ab => P (fst ab) /\ Q (snd ab)) (all2 t1 t2).
Proof.
  revert t2. induction t1 as [a|e|e t1 IH|c k IH|l IHl r IHr]; intros t2 H1.
  - (* fulfilled: wait for the other *)
    induction t2 as [b|e|e t2 IH2|c2 k2 IH2|l2 IHl2 r2 IHr2]; intros H2.
    + exact (yields_pair_l P Q a (Ret b) H1 H2).
    + exact I.
    + exact (IH2 H2).
    + exact (yields_pair_l P Q a (Wait c2 k2) H1 H2).
    + exact (yields_pair_l P Q a (Race l2 r2) H1 H2).
  - (* rejected *)
    intros _. destruct t2; apply (yields_started _ _ e).
  - (* a synchronous effect of the left task comes first *)
    intros H2. destruct t2; exact (IH _ H1 H2).
  - (* the left task is suspended *)
    induction t2 as [b|e|e t2 IH2|c2 k2 IH2|l2 IHl2 r2 IHr2]; intros H2.
    + intros o. exact (yields_pair_r P Q (k o) b (H1 o) H2).
    + exact I.
    + exact (IH2 H2).
    + split; intros o.
      * exact (IH o (Wait c2 k2) (H1 o) H2).
      * exact (IH2 o (H2 o)).
    + destruct H2 as [H2l H2r]. split; [exact (IHl2 H2l)|exact (IHr2 H2r)].
  - (* the left task is itself waiting for one of several requests *)
    destruct H1 as [H1l H1r].
    induction t2 as [b|e|e t2 IH2|c2 k2 IH2|l2 IHl2 r2 IHr2]; intros H2.
    + split; [exact (IHl _ H1l H2)|exact (IHr _ H1r H2)].
    + exact I.
    + exact (IH2 H2).
    + split; [exact (IHl _ H1l H2)|exact (IHr _ H1r H2)].
    + split; [exact (IHl _ H1l H2)|exact (IHr _ H1r H2)].
Qed.

Lemma yields_all {A} (P : A -> Prop) (ts : list (Task A)) :
  Forall (yields P) ts -> yields (Forall P) (all ts).
Proof.
  induction 1 as [|t ts Ht _ IH]; cbn [all].
  - constructor.
  - apply yields_bind.
    eapply yields_mono; [|exact (yields_all2 P (Forall P) t (all ts) Ht IH)].
    intros [a l] [Ha Hl]. cbn in *. constructor; assumption.
Qed.

Lemma yields_isDevicePortOpen deviceClient port :
  yields (fun _ => True) (isDevicePortOpen deviceClient port).
Proof. cbn. intros [conn|e]; exact I. Qed.

Lemma yields_getHostStatus (deviceId : string) :
  yields (fun host => exists state, host = hostOf deviceId state)
    (getHostStatus deviceId).
Proof.
  unfold getHostStatus. apply yields_bind.
  eapply yields_mono;
    [|exact (yields_all2 _ _ _ _
               (yields_isDevicePortOpen (getDevice deviceId) FRIDA_DEFAULT_PORT)
               (yields_isDevicePortOpen (getDevice deviceId) FRIDA_ALTERNATE_PORT))].
  intros [defaultPortOpen alternatePortOpen] _.
  destruct (defaultPortOpen || alternatePortOpen); cbn.
  - eexists; reflexivity.
  - intros [entries|e]; cbn.
    + destruct (existsb _ entries); cbn; [eexists; reflexivity|].
      intros [[|]|e]; cbn; try exact I; eexists; reflexivity.
    + intros [[|]|e']; cbn; try exact I; eexists; reflexivity.
Qed.

(** C10.  Every host that discovery produces has its id as its name, the
    type [android], and no targets, whatever state was resolved for it. *)
Theorem getAndroidFridaHosts_host_shape (w : World) (h h' : History)
    (hosts : list FridaHost.t) :
  run w getAndroidFridaHosts h = (Fulfilled hosts, h') ->
  forall host, In host hosts ->
    FridaHost.name host = FridaHost.id host /\
    FridaHost.type host = "android" /\
    FridaHost.targets host = None.
Proof.
  unfold run. intros Hrun.
  destruct (exec w getAndroidFridaHosts h 0) as [[o hh] n] eqn:Hexec.
  cbn in Hrun. injection Hrun as -> ->.
  assert (Hall : Forall (fun host => exists deviceId state, host = hostOf deviceId state) hosts).
  { refine (yields_exec _ w getAndroidFridaHosts h 0%nat hosts h' n _ Hexec).
    unfold getAndroidFridaHosts. cbn [call bind yields].
    intros [devices|e]; cbn [bind yields]; [|exact I].
    apply yields_bind.
    eapply yields_mono; [|apply yields_all].
    - intros l Hl. exact Hl.
    - apply Forall_map. apply Forall_forall. intros deviceId _.
      eapply yields_mono; [|apply yields_getHostStatus].
      intros host [state ->]. eauto. }
  intros host Hin. rewrite Forall_forall in Hall.
  destruct (Hall host) as [deviceId [state ->]].
  - apply list_elem_of_In. exact Hin.
  - repeat split.
Qed.

Lemma getAndroidFridaHosts_host_shape_witness :
  let w := withDevices ["emulator-5554"; "R58M123ABC"]
             (deviceWorld false false [Entry.mk FRIDA_BINARY_NAME 493] true false) in
  let host := hostOf "R58M123ABC" launch_required in
  FridaHost.name host = FridaHost.id host /\
  FridaHost.type host = "android" /\
  FridaHost.targets host = None.
Proof.
  intros w host.
  apply (getAndroidFridaHosts_host_shape w [] (snd (run w getAndroidFridaHosts []))
           [hostOf "emulator-5554" launch_required; host]).
  - vm_compute. reflexivity.
  - right. left. reflexivity.
Defined.

(** ** Launch *)












(** Where the server comes up, Launch succeeds at its first probe, and the
    host that needed a launch before is available after. *)
Example launchAndroidHost_server_starts :
  fst (run serverStartsWorld (getHostStatus "emulator-5554") [])
    = Fulfilled (hostOf "emulator-5554" launch_required) /\
  (let '(launched, h) :=
     run serverStartsWorld (launchAndroidHost "Wait loop failed" "emulator-5554") [] in
   launched = Fulfilled tt /\
   issued isStatusProbe h = 1%nat /\
   fst (run serverStartsWorld (getHostStatus "emulator-5554") h)
     = Fulfilled (hostOf "emulator-5554" available)).
Proof. vm_compute. repeat split. Qed.

(** ** The cached lookup *)

Section Cache.

Import FridaAndroidInterceptor.

Lemma CacheInv_new : CacheInv new.
Proof. split; reflexivity. Qed.

(** The first caller when no lookup is active starts one. *)
Lemma first_call caller this :
  _fridaTargetsPromise this = None ->
  getFridaHosts caller this =
    {| _fridaTargetsPromise := Some (started this);
       lookups := started this :: lookups this;
       started := S (started this);
       awaiting := awaiting this ++ [(caller, started this)];
       returned := returned this |}.
Proof. intros Hslot. unfold getFridaHosts. rewrite Hslot. reflexivity. Qed.

(** A caller that arrives while a lookup is active joins the wait. *)
Lemma later_call caller p this :
  _fridaTargetsPromise this = Some p ->
  getFridaHosts caller this =
    {| _fridaTargetsPromise := Some p;
       lookups := lookups this;
       started := started this;
       awaiting := awaiting this ++ [(caller, p)];
       returned := returned this |}.
Proof.
  intros Hslot. unfold getFridaHosts. rewrite Hslot. cbn. rewrite Hslot.
  reflexivity.
Qed.

Lemma CacheInv_getFridaHosts caller this :
  CacheInv this -> CacheInv (getFridaHosts caller this).
Proof.
  intros Hinv. unfold CacheInv in Hinv.
  destruct (_fridaTargetsPromise this) as [p|] eqn:Hslot; destruct Hinv as [Hl Ha].
  - rewrite (later_call caller p this Hslot). split; [exact Hl|]. cbn.
    apply Forall_app. split; [exact Ha|]. repeat constructor.
  - rewrite (first_call caller this Hslot). split; cbn.
    + rewrite Hl. reflexivity.
    + rewrite Ha. repeat constructor.
Qed.

Lemma filter_awaiting p (l : list (Caller * PromiseId)) :
  Forall (fun cq => snd cq = p) l ->
  List.filter (fun cq => Nat.eqb p (snd cq)) l = l /\
  List.filter (fun cq => negb (Nat.eqb p (snd cq))) l = [].
Proof.
  induction 1 as [|[c q] l Hq _ [IH1 IH2]]; cbn; [split; reflexivity|].
  cbn in Hq. subst q. rewrite Nat.eqb_refl. cbn. rewrite IH1, IH2.
  split; reflexivity.
Qed.

(** What settling the active lookup does. *)
Lemma settle_active p r this :
  _fridaTargetsPromise this = Some p -> CacheInv this ->
  settle p r this =
    {| _fridaTargetsPromise := None;
       lookups := [];
       started := started this;
       awaiting := [];
       returned := returned this ++ map (fun cq => (fst cq, r)) (awaiting this) |}.
Proof.
  unfold CacheInv. intros Hslot. rewrite Hslot. intros [Hl Ha].
  unfold settle. rewrite Hl. cbn. rewrite Nat.eqb_refl. cbn.
  destruct (filter_awaiting p _ Ha) as [-> ->]. reflexivity.
Qed.

Lemma CacheInv_settle p r this :
  CacheInv this -> CacheInv (settle p r this).
Proof.
  intros Hinv. unfold settle.
  destruct (existsb (Nat.eqb p) (lookups this)) eqn:Hp; [|exact Hinv].
  assert (Hslot : _fridaTargetsPromise this = Some p).
  { unfold CacheInv in Hinv.
    destruct (_fridaTargetsPromise this) as [q|]; destruct Hinv as [Hl Ha];
      rewrite Hl in Hp; cbn in Hp; [|discriminate].
    rewrite orb_false_r in Hp. apply Nat.eqb_eq in Hp. congruence. }
  pose proof (settle_active p r this Hslot Hinv) as E.
  unfold settle in E. rewrite Hp in E. rewrite E. split; reflexivity.
Qed.

Lemma CacheInv_steps l this :
  CacheInv this -> CacheInv (steps this l).
Proof.
  revert this. induction l as [|s l IH]; intros this Hinv; [exact Hinv|].
  cbn. apply IH. destruct s; [apply CacheInv_getFridaHosts|apply CacheInv_settle];
    exact Hinv.
Qed.

(** Callers that arrive while a lookup is active only join the wait. *)
Lemma calls_while_active p callers this :
  _fridaTargetsPromise this = Some p ->
  steps this (map Calls callers) =
    {| _fridaTargetsPromise := Some p;
       lookups := lookups this;
       started := started this;
       awaiting := awaiting this ++ map (fun c => (c, p)) callers;
       returned := returned this |}.
Proof.
  revert this. induction callers as [|c callers IH]; intros this Hslot.
  - cbn. rewrite app_nil_r. destruct this. cbn in Hslot. subst. reflexivity.
  - cbn [map steps fold_left step].
    change (fold_left step (map Calls callers) (getFridaHosts c this))
      with (steps (getFridaHosts c this) (map Calls callers)).
    rewrite (later_call c p this Hslot). rewrite IH by reflexivity. cbn.
    rewrite <- app_assoc. reflexivity.
Qed.

End Cache.

(** C2.  At most one lookup of the hosts is in flight at any time.  When
    callers arrive while none is in flight, exactly one lookup is started,
    and when it settles, with hosts or with an error, every one of them
    gets that same result.  Settling clears the slot, so the next call
    starts a new lookup. *)
Theorem getFridaHosts_single_flight :
  let steps := FridaAndroidInterceptor.steps FridaAndroidInterceptor.new in
  (forall l, (List.length (FridaAndroidInterceptor.lookups (steps l)) <= 1)%nat) /\
  (forall l callers r,
     FridaAndroidInterceptor.lookups (steps l) = [] ->
     callers <> [] ->
     let idle := steps l in
     let p := FridaAndroidInterceptor.started idle in
     let pending :=
       FridaAndroidInterceptor.steps idle (map FridaAndroidInterceptor.Calls callers) in
     let settled := FridaAndroidInterceptor.settle p r pending in
     FridaAndroidInterceptor.started pending = S p /\
     FridaAndroidInterceptor.lookups pending = [p] /\
     FridaAndroidInterceptor.returned settled =
       FridaAndroidInterceptor.returned idle ++ map (fun caller => (caller, r)) callers /\
     FridaAndroidInterceptor._fridaTargetsPromise settled = None /\
     FridaAndroidInterceptor.lookups settled = []) /\
  (forall l p r caller,
     In p (FridaAndroidInterceptor.lookups (steps l)) ->
     let settled := FridaAndroidInterceptor.settle p r (steps l) in
     let next := FridaAndroidInterceptor.getFridaHosts caller settled in
     FridaAndroidInterceptor._fridaTargetsPromise settled = None /\
     FridaAndroidInterceptor.lookups settled = [] /\
     FridaAndroidInterceptor.started next = S (FridaAndroidInterceptor.started settled) /\
     FridaAndroidInterceptor.lookups next = [FridaAndroidInterceptor.started settled]).
Proof.
  intros steps.
  assert (Hinv : forall l, CacheInv (steps l)).
  { intros l. apply CacheInv_steps, CacheInv_new. }
  split; [|split].
  - intros l. specialize (Hinv l). unfold CacheInv in Hinv.
    destruct (FridaAndroidInterceptor._fridaTargetsPromise (steps l));
      destruct Hinv as [-> _]; cbn; lia.
  - intros l callers r Hidle Hcallers idle p pending settled.
    specialize (Hinv l). fold idle in Hinv, Hidle. unfold CacheInv in Hinv.
    destruct (FridaAndroidInterceptor._fridaTargetsPromise idle) as [q|] eqn:Hslot.
    { destruct Hinv as [Hl _]. rewrite Hl in Hidle. discriminate. }
    destruct Hinv as [_ Hawait].
    destruct callers as [|c callers]; [congruence|].
    assert (Epending : pending =
      {| FridaAndroidInterceptor._fridaTargetsPromise := Some p;
         FridaAndroidInterceptor.lookups := [p];
         FridaAndroidInterceptor.started := S p;
         FridaAndroidInterceptor.awaiting := map (fun caller => (caller, p)) (c :: callers);
         FridaAndroidInterceptor.returned := FridaAndroidInterceptor.returned idle |}).
    { subst pending. cbn [map FridaAndroidInterceptor.steps fold_left FridaAndroidInterceptor.step].
      change (fold_left FridaAndroidInterceptor.step ?x ?y)
        with (FridaAndroidInterceptor.steps y x).
      rewrite (calls_while_active p);
        rewrite (first_call c idle Hslot); cbn; [|reflexivity].
      rewrite Hidle, Hawait. reflexivity. }
    assert (Esettled : settled =
      {| FridaAndroidInterceptor._fridaTargetsPromise := None;
         FridaAndroidInterceptor.lookups := [];
         FridaAndroidInterceptor.started := S p;
         FridaAndroidInterceptor.awaiting := [];
         FridaAndroidInterceptor.returned :=
           FridaAndroidInterceptor.returned idle ++
           map (fun caller => (caller, r)) (c :: callers) |}).
    { subst settled. rewrite (settle_active p r pending).
      - rewrite Epending. cbn. rewrite map_map. reflexivity.
      - rewrite Epending. reflexivity.
      - rewrite Epending. split; [reflexivity|].
        cbn [FridaAndroidInterceptor.awaiting].
        apply Forall_map. apply Forall_forall. intros caller _. reflexivity. }
    rewrite Epending, Esettled. cbn. repeat split.
  - intros l p r caller Hin settled next.
    specialize (Hinv l). 
    assert (Hslot : FridaAndroidInterceptor._fridaTargetsPromise (steps l) = Some p).
    { unfold CacheInv in Hinv.
      destruct (FridaAndroidInterceptor._fridaTargetsPromise (steps l)) as [q|];
        destruct Hinv as [Hl _]; rewrite Hl in Hin; cbn in Hin; [|contradiction].
      destruct Hin as [->|[]]. reflexivity. }
    subst next settled.
    rewrite (settle_active p r _ Hslot Hinv).
    rewrite first_call by reflexivity. cbn. repeat split.
Qed.

Lemma getFridaHosts_single_flight_witness :
  let emulator := hostOf "emulator-5554" available in
  let this :=
    FridaAndroidInterceptor.steps FridaAndroidInterceptor.new
      [FridaAndroidInterceptor.Calls 1%nat; FridaAndroidInterceptor.Calls 2%nat;
       FridaAndroidInterceptor.Calls 3%nat;
       FridaAndroidInterceptor.Settles 0%nat (Fulfilled [emulator])] in
  FridaAndroidInterceptor.started this = 1%nat /\
  FridaAndroidInterceptor.returned this =
    [(1%nat, Fulfilled [emulator]); (2%nat, Fulfilled [emulator]);
     (3%nat, Fulfilled [emulator])] /\
  FridaAndroidInterceptor._fridaTargetsPromise this = None.
Proof.
  intros emulator this.
  destruct (proj1 (proj2 getFridaHosts_single_flight) []
              [1%nat; 2%nat; 3%nat] (Fulfilled [emulator]))
    as [Hstarted [_ [Hreturned [Hslot _]]]].
  - reflexivity.
  - discriminate.
  - split; [exact Hstarted|]. split; [exact Hreturned|exact Hslot].
Defined.

(** * Further properties *)

(** ** Reading a history *)

Ltac event_inv :=
  repeat match goal with
    | H : In _ (_ :: _) |- _ => cbn [In] in H
    | H : In _ [] |- _ => destruct H
    | H : _ \/ _ |- _ => destruct H
    | H : False |- _ => destruct H
    | H : Did _ = Settled _ _ |- _ => discriminate H
    | H : Settled _ _ = Did _ |- _ => discriminate H
    | H : Did _ = Did _ |- _ => first [discriminate H | inversion H; clear H; subst]
    | H : Settled ?c _ = Settled ?c _ |- _ =>
        apply Settled_inj in H; first [discriminate H | inversion H; clear H; subst]
    | H : Settled ?c _ = Settled ?c' _ |- _ =>
        first [ solve [inversion H]
              | let E := fresh in
                assert (E : c = c') by (inversion H; reflexivity);
                inversion E; clear E; subst ]
    end.

(** ** Opening the Frida session *)

(** The alternate port is tried first, the default port only when that
    fails. *)
Lemma exec_open_stream (w : World) deviceClient h n :
  let alt := OpenTcp deviceClient FRIDA_ALTERNATE_PORT in
  let def := OpenTcp deviceClient FRIDA_DEFAULT_PORT in
  exec w (catch (call alt) (fun _ => call def)) h n =
    let oa := answer w alt (h ++ [Did (Issue alt)]) in
    let h1 := h ++ [Did (Issue alt); Settled alt oa] in
    match oa with
    | Fulfilled stream => (Fulfilled stream, h1, 0%nat)
    | Rejected _ =>
        let od := answer w def (h1 ++ [Did (Issue def)]) in
        (od, h1 ++ [Did (Issue def); Settled def od], 0%nat)
    end.
Proof.
  intros alt def. rewrite exec_catch, (exec_call w alt). cbv zeta.
  destruct (answer w alt _) as [stream|e]; [reflexivity|].
  rewrite (exec_call w def). reflexivity.
Qed.

Lemma exec_getAndroidFridaTargets (w : World) hostId h n :
  exec w (getAndroidFridaTargets hostId) h n =
    let '(os, h1, _) :=
      exec w (catch (call (OpenTcp hostId FRIDA_ALTERNATE_PORT))
                    (fun _ => call (OpenTcp hostId FRIDA_DEFAULT_PORT))) h n in
    match os with
    | Rejected e => (Rejected e, h1, 0%nat)
    | Fulfilled fridaStream =>
        let cn := FridaConnect fridaStream in
        let oc := answer w cn (h1 ++ [Did (Issue cn)]) in
        let h2 := h1 ++ [Did (Issue cn); Settled cn oc] in
        match oc with
        | Rejected e => (Rejected e, h2, 0%nat)
        | Fulfilled fridaSession =>
            let en := EnumerateApplications fridaSession in
            let oe := answer w en (h2 ++ [Did (Issue en)]) in
            let h3 := h2 ++ [Did (Issue en); Settled en oe] in
            match oe with
            | Rejected e => (Rejected e, h3, 0%nat)
            | Fulfilled apps => (Fulfilled apps, h3 ++ [Did (Disconnect fridaSession)], 0%nat)
            end
        end
    end.
Proof.
  unfold getAndroidFridaTargets, getDevice.
  rewrite exec_bind, exec_open_stream. cbv zeta.
  destruct (answer w (OpenTcp hostId FRIDA_ALTERNATE_PORT) _) as [s|ea].
  - rewrite exec_bind, (exec_call w (FridaConnect s)). cbv zeta.
    destruct (answer w (FridaConnect s) _) as [sess|ec]; [|reflexivity].
    rewrite exec_bind, (exec_call w (EnumerateApplications sess)). cbv zeta.
    destruct (answer w (EnumerateApplications sess) _) as [apps|ee]; reflexivity.
  - destruct (answer w (OpenTcp hostId FRIDA_DEFAULT_PORT) _) as [s|ed]; [|reflexivity].
    rewrite exec_bind, (exec_call w (FridaConnect s)). cbv zeta.
    destruct (answer w (FridaConnect s) _) as [sess|ec]; [|reflexivity].
    rewrite exec_bind, (exec_call w (EnumerateApplications sess)). cbv zeta.
    destruct (answer w (EnumerateApplications sess) _) as [apps|ee]; reflexivity.
Qed.

Lemma exec_interceptAndroidFridaTarget (w : World) hostId appId caCertContent proxyPort h n :
  exec w (interceptAndroidFridaTarget hostId appId caCertContent proxyPort) h n =
    let '(os, h1, _) :=
      exec w (catch (call (OpenTcp hostId FRIDA_ALTERNATE_PORT))
                    (fun _ => call (OpenTcp hostId FRIDA_DEFAULT_PORT))) h n in
    match os with
    | Rejected e => (Rejected e, h1, 0%nat)
    | Fulfilled fridaStream =>
        let cn := FridaConnect fridaStream in
        let oc := answer w cn (h1 ++ [Did (Issue cn)]) in
        let h2 := h1 ++ [Did (Issue cn); Settled cn oc] in
        match oc with
        | Rejected e => (Rejected e, h2, 0%nat)
        | Fulfilled fridaSession =>
            let bs := BuildAndroidFridaScript caCertContent "10.0.0.102" proxyPort in
            let ob := answer w bs (h2 ++ [Did (Issue bs)]) in
            let h3 := h2 ++ [Did (Issue bs); Settled bs ob] in
            match ob with
            | Rejected e => (Rejected e, h3, 0%nat)
            | Fulfilled script =>
                let sp := SpawnWithScript fridaSession appId script in
                let osp := answer w sp (h3 ++ [Did (Issue sp)]) in
                (osp, h3 ++ [Did (Issue sp); Settled sp osp], 0%nat)
            end
        end
    end.
Proof.
  unfold interceptAndroidFridaTarget, getDevice.
  rewrite exec_bind, exec_open_stream. cbv zeta.
  destruct (answer w (OpenTcp hostId FRIDA_ALTERNATE_PORT) _) as [s|ea].
  - rewrite exec_bind, (exec_call w (FridaConnect s)). cbv zeta.
    destruct (answer w (FridaConnect s) _) as [sess|ec]; [|reflexivity].
    rewrite exec_bind,
      (exec_call w (BuildAndroidFridaScript caCertContent "10.0.0.102" proxyPort)).
    cbv zeta.
    destruct (answer w (BuildAndroidFridaScript _ _ _) _) as [script|eb]; [|reflexivity].
    rewrite (exec_call w (SpawnWithScript sess appId script)). reflexivity.
  - destruct (answer w (OpenTcp hostId FRIDA_DEFAULT_PORT) _) as [s|ed]; [|reflexivity].
    rewrite exec_bind, (exec_call w (FridaConnect s)). cbv zeta.
    destruct (answer w (FridaConnect s) _) as [sess|ec]; [|reflexivity].
    rewrite exec_bind,
      (exec_call w (BuildAndroidFridaScript caCertContent "10.0.0.102" proxyPort)).
    cbv zeta.
    destruct (answer w (BuildAndroidFridaScript _ _ _) _) as [script|eb]; [|reflexivity].
    rewrite (exec_call w (SpawnWithScript sess appId script)). reflexivity.
Qed.

(** X1.  Both users of the Frida session open it the same way: the alternate
    port first; when it takes the connection no other port is tried; when
    it does not, the default port is tried next, and when that fails too
    the call is rejected with the error of the default port, nothing else
    having been asked. *)
Theorem frida_session_port_preference (w : World) (hostId : string) (h : History) :
  let alt := OpenTcp hostId FRIDA_ALTERNATE_PORT in
  let def := OpenTcp hostId FRIDA_DEFAULT_PORT in
  let oa := answer w alt (h ++ [Did (Issue alt)]) in
  let od := answer w def (h ++ [Did (Issue alt); Settled alt oa; Did (Issue def)]) in
  let preferred {A} (t : Task A) :=
    exists ext,
      snd (run w t h) = h ++ Did (Issue alt) :: Settled alt oa :: ext /\
      match oa with
      | Fulfilled _ =>
          forall deviceClient port, ~ In (Did (Issue (OpenTcp deviceClient port))) ext
      | Rejected _ =>
          exists ext',
            ext = Did (Issue def) :: Settled def od :: ext' /\
            (forall deviceClient port, ~ In (Did (Issue (OpenTcp deviceClient port))) ext') /\
            forall e, od = Rejected e -> ext' = [] /\ fst (run w t h) = Rejected e
      end in
  preferred (getAndroidFridaTargets hostId) /\
  forall appId caCertContent proxyPort,
    preferred (interceptAndroidFridaTarget hostId appId caCertContent proxyPort).
Proof.
  intros alt def oa od preferred. split; [|intros appId caCertContent proxyPort];
    unfold preferred, run.
  - rewrite exec_getAndroidFridaTargets, exec_open_stream. cbv zeta.
    fold alt def. fold oa. rewrite <- app_assoc. cbn [app]. fold od.
    destruct oa as [s|ea].
    + destruct (answer w (FridaConnect s) _) as [sess|ec];
        [destruct (answer w (EnumerateApplications sess) _) as [apps|ee]|];
        cbn [fst snd]; rewrite <- ?app_assoc; cbn [app];
        (eexists; split; [reflexivity|]); intros deviceClient port Hin; event_inv.
    + destruct od as [s|ed].
      * destruct (answer w (FridaConnect s) _) as [sess|ec];
          [destruct (answer w (EnumerateApplications sess) _) as [apps|ee]|];
          cbn [fst snd]; rewrite <- ?app_assoc; cbn [app];
          (eexists; split; [reflexivity|]); (eexists; split; [reflexivity|]);
          (split; [intros deviceClient port Hin; event_inv|discriminate]).
      * cbn [fst snd]. rewrite <- ?app_assoc. cbn [app].
        eexists; split; [reflexivity|]. eexists; split; [reflexivity|].
        split; [intros deviceClient port Hin; event_inv|].
        intros e He. injection He as <-. split; reflexivity.
  - rewrite exec_interceptAndroidFridaTarget, exec_open_stream. cbv zeta.
    fold alt def. fold oa. rewrite <- app_assoc. cbn [app]. fold od.
    destruct oa as [s|ea].
    + destruct (answer w (FridaConnect s) _) as [sess|ec];
        [destruct (answer w (BuildAndroidFridaScript _ _ _) _) as [script|eb]|];
        cbn [fst snd]; rewrite <- ?app_assoc; cbn [app];
        (eexists; split; [reflexivity|]); intros deviceClient port Hin; event_inv.
    + destruct od as [s|ed].
      * destruct (answer w (FridaConnect s) _) as [sess|ec];
          [destruct (answer w (BuildAndroidFridaScript _ _ _) _) as [script|eb]|];
          cbn [fst snd]; rewrite <- ?app_assoc; cbn [app];
          (eexists; split; [reflexivity|]); (eexists; split; [reflexivity|]);
          (split; [intros deviceClient port Hin; event_inv|discriminate]).
      * cbn [fst snd]. rewrite <- ?app_assoc. cbn [app].
        eexists; split; [reflexivity|]. eexists; split; [reflexivity|].
        split; [intros deviceClient port Hin; event_inv|].
        intros e He. injection He as <-. split; reflexivity.
Qed.

(** ** The targets of a host *)

(** X2.  When the targets are returned, they are the applications enumerated
    on the session that was connected, and that session is disconnected
    last.  When the call fails, its error is the rejection of the last
    request it made: of the default port, of the connection of the
    session, or of the enumeration.  The rejection of the alternate port
    is the only one that may come before, and it is never the error of
    the call.  No session is disconnected then: a session whose
    enumeration fails stays connected. *)
Theorem getAndroidFridaTargets_disconnect (w : World) (hostId : string) (h : History) :
  exists ext,
    snd (run w (getAndroidFridaTargets hostId) h) = h ++ ext /\
    match fst (run w (getAndroidFridaTargets hostId) h) with
    | Fulfilled apps =>
        exists stream fridaSession pre,
          let en := EnumerateApplications fridaSession in
          ext = pre ++ [Did (Issue en); Settled en (Fulfilled apps);
                        Did (Disconnect fridaSession)] /\
          In (Settled (FridaConnect stream) (Fulfilled fridaSession)) pre /\
          forall session, ~ In (Did (Disconnect session)) pre
    | Rejected e =>
        (forall session, ~ In (Did (Disconnect session)) ext) /\
        exists pre c,
          ext = pre ++ [Did (Issue c); Settled c (Rejected e)] /\
          (c = OpenTcp hostId FRIDA_DEFAULT_PORT \/
           (exists stream, c = FridaConnect stream) \/
           (exists fridaSession, c = EnumerateApplications fridaSession)) /\
          forall c' e',
            In (Settled c' (Rejected e')) pre ->
            c' = OpenTcp hostId FRIDA_ALTERNATE_PORT
    end.
Proof.
  unfold run. rewrite exec_getAndroidFridaTargets, exec_open_stream. cbv zeta.
  set (alt := OpenTcp hostId FRIDA_ALTERNATE_PORT).
  set (def := OpenTcp hostId FRIDA_DEFAULT_PORT).
  destruct (answer w alt _) as [s|ea] eqn:Ha.
  - destruct (answer w (FridaConnect s) _) as [sess|ec] eqn:Hc;
      [destruct (answer w (EnumerateApplications sess) _) as [apps|ee] eqn:He|];
      cbn [fst snd]; rewrite <- ?app_assoc; cbn [app];
      (eexists; split; [reflexivity|]).
    + exists s, sess,
        [Did (Issue alt); Settled alt (Fulfilled s);
         Did (Issue (FridaConnect s)); Settled (FridaConnect s) (Fulfilled sess)].
      cbv zeta. split; [reflexivity|]. split; [cbn; auto 6|].
      intros session Hin. event_inv.
    + split; [intros session Hin; event_inv|].
      exists [Did (Issue alt); Settled alt (Fulfilled s);
              Did (Issue (FridaConnect s)); Settled (FridaConnect s) (Fulfilled sess)],
             (EnumerateApplications sess).
      split; [reflexivity|]. split; [eauto|].
      intros c' e' Hin. subst alt. event_inv.
    + split; [intros session Hin; event_inv|].
      exists [Did (Issue alt); Settled alt (Fulfilled s)], (FridaConnect s).
      split; [reflexivity|]. split; [eauto|].
      intros c' e' Hin. subst alt. event_inv.
  - destruct (answer w def _) as [s|ed] eqn:Hd.
    + destruct (answer w (FridaConnect s) _) as [sess|ec] eqn:Hc;
        [destruct (answer w (EnumerateApplications sess) _) as [apps|ee] eqn:He|];
        cbn [fst snd]; rewrite <- ?app_assoc; cbn [app];
        (eexists; split; [reflexivity|]).
      * exists s, sess,
          [Did (Issue alt); Settled alt (Rejected ea);
           Did (Issue def); Settled def (Fulfilled s);
           Did (Issue (FridaConnect s)); Settled (FridaConnect s) (Fulfilled sess)].
        cbv zeta. split; [reflexivity|]. split; [cbn; auto 8|].
        intros session Hin. event_inv.
      * split; [intros session Hin; event_inv|].
        exists [Did (Issue alt); Settled alt (Rejected ea);
                Did (Issue def); Settled def (Fulfilled s);
                Did (Issue (FridaConnect s)); Settled (FridaConnect s) (Fulfilled sess)],
               (EnumerateApplications sess).
        split; [reflexivity|]. split; [eauto|].
        intros c' e' Hin. subst alt def. event_inv; reflexivity.
      * split; [intros session Hin; event_inv|].
        exists [Did (Issue alt); Settled alt (Rejected ea);
                Did (Issue def); Settled def (Fulfilled s)], (FridaConnect s).
        split; [reflexivity|]. split; [eauto|].
        intros c' e' Hin. subst alt def. event_inv; reflexivity.
    + cbn [fst snd]. rewrite <- ?app_assoc. cbn [app].
      eexists; split; [reflexivity|].
      split; [intros session Hin; event_inv|].
      exists [Did (Issue alt); Settled alt (Rejected ea)], def.
      split; [reflexivity|]. split; [left; reflexivity|].
      intros c' e' Hin. subst alt. event_inv; reflexivity.
Qed.

Example getAndroidFridaTargets_enumeration_fails :
  run (sessionWorld false true (Rejected "session lost"))
      (getAndroidFridaTargets "emulator-5554") [] =
    (Rejected "session lost",
     [Did (Issue (OpenTcp "emulator-5554" 24072));
      Settled (OpenTcp "emulator-5554" 24072) (Rejected "alternate closed");
      Did (Issue (OpenTcp "emulator-5554" 27042));
      Settled (OpenTcp "emulator-5554" 27042) (Fulfilled 2%nat);
      Did (Issue (FridaConnect 2%nat));
      Settled (FridaConnect 2%nat) (Fulfilled 2%nat);
      Did (Issue (EnumerateApplications 2%nat));
      Settled (EnumerateApplications 2%nat) (Rejected "session lost")]).
Proof. reflexivity. Qed.

(** ** Intercepting a target *)

(** X3.  The script is built for the given certificate, the proxy address
    10.0.0.102 and the given proxy port, and only once the session is
    connected.  The application spawned is the target, with the script
    that was built, on the session that was connected; when the session
    or the script fails nothing is spawned.  The call settles as the
    spawn does. *)
Theorem interceptAndroidFridaTarget_spawn (w : World)
    (hostId appId caCertContent : string) (proxyPort : Z) (h : History) :
  let intercept := interceptAndroidFridaTarget hostId appId caCertContent proxyPort in
  exists ext,
    snd (run w intercept h) = h ++ ext /\
    (forall ca proxyHost port,
       In (Did (Issue (BuildAndroidFridaScript ca proxyHost port))) ext ->
       ca = caCertContent /\ proxyHost = "10.0.0.102" /\ port = proxyPort /\
       exists stream fridaSession,
         In (Settled (FridaConnect stream) (Fulfilled fridaSession)) ext) /\
    (forall fridaSession app script,
       let sp := SpawnWithScript fridaSession app script in
       In (Did (Issue sp)) ext ->
       app = appId /\
       (exists stream, In (Settled (FridaConnect stream) (Fulfilled fridaSession)) ext) /\
       In (Settled (BuildAndroidFridaScript caCertContent "10.0.0.102" proxyPort)
             (Fulfilled script)) ext /\
       exists o, In (Settled sp o) ext /\ fst (run w intercept h) = o) /\
    (fst (run w intercept h) = Fulfilled tt ->
     exists fridaSession script,
       In (Settled (SpawnWithScript fridaSession appId script) (Fulfilled tt)) ext).
Proof.
  intros intercept. subst intercept. unfold run.
  rewrite exec_interceptAndroidFridaTarget, exec_open_stream. cbv zeta.
  set (alt := OpenTcp hostId FRIDA_ALTERNATE_PORT).
  set (def := OpenTcp hostId FRIDA_DEFAULT_PORT).
  set (bs := BuildAndroidFridaScript caCertContent "10.0.0.102" proxyPort).
  destruct (answer w alt _) as [s|ea] eqn:Ha.
  - destruct (answer w (FridaConnect s) _) as [sess|ec] eqn:Hc;
      [destruct (answer w bs _) as [script|eb] eqn:Hb;
       [destruct (answer w (SpawnWithScript sess appId script) _) as [[]|es] eqn:Hs|]|];
      cbn [fst snd]; rewrite <- ?app_assoc; cbn [app];
      (eexists; split; [reflexivity|]);
      (split; [intros ca proxyHost port Hin; event_inv;
               repeat split; exists s, sess; cbn; auto 10|]);
      (split; [cbv zeta; intros fridaSession app script' Hin; event_inv;
               repeat split; try (exists s); try (eexists; split; [|reflexivity]);
               cbn; auto 12|]);
      intros Hok; try discriminate Hok; eexists _, _; cbn; auto 12.
  - destruct (answer w def _) as [s|ed] eqn:Hd;
      [destruct (answer w (FridaConnect s) _) as [sess|ec] eqn:Hc;
       [destruct (answer w bs _) as [script|eb] eqn:Hb;
        [destruct (answer w (SpawnWithScript sess appId script) _) as [[]|es] eqn:Hs|]|]|];
      cbn [fst snd]; rewrite <- ?app_assoc; cbn [app];
      (eexists; split; [reflexivity|]);
      (split; [intros ca proxyHost port Hin; event_inv;
               repeat split; exists s, sess; cbn; auto 12|]);
      (split; [cbv zeta; intros fridaSession app script' Hin; event_inv;
               repeat split; try (exists s); try (eexists; split; [|reflexivity]);
               cbn; auto 14|]);
      intros Hok; try discriminate Hok; eexists _, _; cbn; auto 14.
Qed.

Example interceptAndroidFridaTarget_falls_back :
  run (sessionWorld false true (Fulfilled []))
      (interceptAndroidFridaTarget "emulator-5554" "com.example.app" "CERT" 8000) [] =
    (Fulfilled tt,
     [Did (Issue (OpenTcp "emulator-5554" 24072));
      Settled (OpenTcp "emulator-5554" 24072) (Rejected "alternate closed");
      Did (Issue (OpenTcp "emulator-5554" 27042));
      Settled (OpenTcp "emulator-5554" 27042) (Fulfilled 2%nat);
      Did (Issue (FridaConnect 2%nat));
      Settled (FridaConnect 2%nat) (Fulfilled 2%nat);
      Did (Issue (BuildAndroidFridaScript "CERT" "10.0.0.102" 8000));
      Settled (BuildAndroidFridaScript "CERT" "10.0.0.102" 8000)
        (Fulfilled "// 10.0.0.102 CERT");
      Did (Issue (SpawnWithScript 2%nat "com.example.app" "// 10.0.0.102 CERT"));
      Settled (SpawnWithScript 2%nat "com.example.app" "// 10.0.0.102 CERT")
        (Fulfilled tt)]).
Proof. reflexivity. Qed.

(** ** Discovery of the hosts *)

Lemma yields_all_Forall2 {A B} (R : B -> A -> Prop) (f : B -> Task A) (l : list B) :
  (forall b, yields (R b) (f b)) -> yields (Forall2 R l) (all (map f l)).
Proof.
  intros Hf. induction l as [|b l IH]; cbn [map all].
  - constructor.
  - apply yields_bind.
    eapply yields_mono;
      [|exact (yields_all2 (R b) (Forall2 R l) (f b) (all (map f l)) (Hf b) IH)].
    intros [a la] [Ha Hla]. cbn in *. constructor; assumption.
Qed.

Lemma hosts_of_devices (devices : list string) (hosts : list FridaHost.t) :
  Forall2 (fun deviceId host => exists state, host = hostOf deviceId state)
    devices hosts ->
  map FridaHost.id hosts = devices.
Proof.
  induction 1 as [|deviceId host devices hosts [state ->] _ IH]; cbn; [reflexivity|].
  rewrite IH. reflexivity.
Qed.

(** X4.  Discovery gives one host for each connected device, in the order in
    which the devices were listed, in whatever order their probes
    settle. *)
Theorem getAndroidFridaHosts_one_host_per_device (w : World) (h h' : History)
    (hosts : list FridaHost.t) :
  run w getAndroidFridaHosts h = (Fulfilled hosts, h') ->
  answer w GetConnectedDevices (h ++ [Did (Issue GetConnectedDevices)])
    = Fulfilled (map FridaHost.id hosts).
Proof.
  unfold run, getAndroidFridaHosts.
  rewrite exec_bind, (exec_call w GetConnectedDevices). cbv zeta.
  destruct (answer w GetConnectedDevices _) as [devices|e]; [|discriminate].
  intros Hrun. f_equal. symmetry. apply hosts_of_devices.
  destruct (exec w _ _ 0) as [[o hh] n] eqn:Hexec in Hrun.
  cbn in Hrun. injection Hrun as -> ->.
  refine (yields_exec _ w _ _ _ hosts h' n _ Hexec).
  apply yields_bind.
  eapply yields_mono;
    [|exact (yields_all_Forall2 _ (fun deviceId => getHostStatus deviceId) devices
               yields_getHostStatus)].
  intros l Hl. exact Hl.
Qed.

Lemma getAndroidFridaHosts_one_host_per_device_witness :
  let devices := ["emulator-5554"; "R58M123ABC"; "192.168.1.20:5555"] in
  let w := withDevices devices (deviceWorld false false [] true false) in
  answer w GetConnectedDevices [Did (Issue GetConnectedDevices)]
    = Fulfilled (map FridaHost.id (map (fun d => hostOf d setup_required) devices)).
Proof.
  intros devices w.
  apply (getAndroidFridaHosts_one_host_per_device w []
           (snd (run w getAndroidFridaHosts []))).
  vm_compute. reflexivity.
Defined.

(** X5.  When the devices cannot be listed, discovery is rejected with that
    error; when no device is connected, it gives no host.  Either way no
    device is asked anything. *)
Theorem getAndroidFridaHosts_no_devices (w : World) (h : History) :
  let ls := GetConnectedDevices in
  let o := answer w ls (h ++ [Did (Issue ls)]) in
  (forall e, o = Rejected e ->
     run w getAndroidFridaHosts h = (Rejected e, h ++ [Did (Issue ls); Settled ls o])) /\
  (o = Fulfilled [] ->
     run w getAndroidFridaHosts h = (Fulfilled [], h ++ [Did (Issue ls); Settled ls o])).
Proof.
  intros ls o. unfold run, getAndroidFridaHosts.
  rewrite exec_bind, (exec_call w ls). cbv zeta. fold o.
  split; [intros e He|intros He]; rewrite He; reflexivity.
Qed.

Lemma getAndroidFridaHosts_no_devices_witness :
  run offlineWorld getAndroidFridaHosts []
    = (Rejected "device offline",
       [Did (Issue GetConnectedDevices);
        Settled GetConnectedDevices (Rejected "device offline")]) /\
  run (withDevices [] offlineWorld) getAndroidFridaHosts []
    = (Fulfilled [],
       [Did (Issue GetConnectedDevices); Settled GetConnectedDevices (Fulfilled [])]).
Proof.
  split.
  - apply (proj1 (getAndroidFridaHosts_no_devices offlineWorld [])). reflexivity.
  - apply (proj2 (getAndroidFridaHosts_no_devices (withDevices [] offlineWorld) [])).
    reflexivity.
Defined.

(** *** All devices are probed at once *)

Lemma exec_extends {A} (w : World) (t : Task A) h n :
  exists tail, snd (fst (exec w t h n)) = h ++ tail.
Proof.
  revert h n. induction t as [a|e|e t IH|c k IH|l IHl r IHr]; intros h n; cbn.
  - exists []. rewrite app_nil_r. reflexivity.
  - exists []. rewrite app_nil_r. reflexivity.
  - destruct (IH (h ++ [Did e]) 0%nat) as [tail ->].
    rewrite <- app_assoc. eauto.
  - destruct (IH (answer w c h) (h ++ [Settled c (answer w c h)]) 0%nat) as [tail ->].
    rewrite <- app_assoc. eauto.
  - destruct (first w h n); auto.
Qed.

Lemma exec_starts_with_syncEffects {A} (w : World) (t : Task A) h n :
  exists tail, snd (fst (exec w t h n)) = h ++ map Did (syncEffects t) ++ tail.
Proof.
  revert h n. induction t as [a|e|e t IH|c k IH|l IHl r IHr]; intros h n;
    try apply exec_extends.
  cbn. destruct (IH (h ++ [Did e]) 0%nat) as [tail ->].
  rewrite <- app_assoc. eauto.
Qed.

Lemma syncEffects_bind {A B} (t : Task A) (f : A -> Task B) :
  suspended (afterSync t) = true ->
  syncEffects (bind t f) = syncEffects t /\
  suspended (afterSync (bind t f)) = true.
Proof.
  induction t as [a|e|e t IH|c k _|l _ r _]; cbn; try discriminate; auto.
  intros H. destruct (IH H) as [-> ->]. auto.
Qed.

Lemma syncEffects_all2 {A B} (t1 : Task A) (t2 : Task B) :
  suspended (afterSync t1) = true ->
  suspended (afterSync t2) || settledAtOnce (afterSync t2) = true ->
  syncEffects (all2 t1 t2) = syncEffects t1 ++ syncEffects t2 /\
  suspended (afterSync (all2 t1 t2)) = true.
Proof.
  revert t2. induction t1 as [a|e|e t1 IH|c k _|l _ r _]; intros t2 H1; try discriminate H1.
  - intros H2.
    assert (E : all2 (Act e t1) t2 = Act e (all2 t1 t2)) by (destruct t2; reflexivity).
    rewrite E. cbn [syncEffects afterSync].
    destruct (IH t2 H1 H2) as [-> ->]. auto.
  - induction t2 as [b|e|e t2 IH2|c2 k2 _|l2 _ r2 _]; intros H2; try discriminate H2.
    + cbn. auto.
    + destruct (IH2 H2) as [E1 E2]. cbn in *. rewrite E1, E2. auto.
    + cbn. auto.
    + cbn. auto.
  - induction t2 as [b|e|e t2 IH2|c2 k2 _|l2 _ r2 _]; intros H2; try discriminate H2.
    + cbn. auto.
    + destruct (IH2 H2) as [E1 E2]. cbn in *. rewrite E1, E2. auto.
    + cbn. auto.
    + cbn. auto.
Qed.

Lemma syncEffects_getHostStatus (deviceId : string) :
  syncEffects (getHostStatus deviceId) =
    [Issue (OpenTcp deviceId FRIDA_DEFAULT_PORT);
     Issue (OpenTcp deviceId FRIDA_ALTERNATE_PORT)] /\
  suspended (afterSync (getHostStatus deviceId)) = true.
Proof. split; reflexivity. Qed.

Lemma syncEffects_all_getHostStatus (devices : list string) :
  let probes := all (map (fun deviceId => getHostStatus deviceId) devices) in
  map Did (syncEffects probes) = probeStarts devices /\
  (devices = [] \/ suspended (afterSync probes) = true).
Proof.
  induction devices as [|deviceId devices [IH1 IH2]]; [split; auto|].
  cbv zeta in *. cbn [map all].
  destruct (syncEffects_getHostStatus deviceId) as [Es Ea].
  destruct (syncEffects_all2 (getHostStatus deviceId)
              (all (map (fun deviceId => getHostStatus deviceId) devices)) Ea)
    as [E1 E2].
  { destruct IH2 as [-> | ->]; reflexivity. }
  destruct (syncEffects_bind
              (all2 (getHostStatus deviceId)
                 (all (map (fun deviceId => getHostStatus deviceId) devices)))
              (fun '(a, l) => Ret (a :: l)) E2) as [E3 E4].
  rewrite E3, E4, E1, Es. split; [|auto].
  rewrite map_app, IH1. reflexivity.
Qed.

(** X6.  Once the devices are listed, the two port probes of every device are
    sent, device by device in the order of the list, before any probe of
    any device settles. *)
Theorem getAndroidFridaHosts_probes_all_at_once (w : World) (h : History)
    (devices : list string) :
  let ls := GetConnectedDevices in
  answer w ls (h ++ [Did (Issue ls)]) = Fulfilled devices ->
  exists tail,
    snd (run w getAndroidFridaHosts h) =
      h ++ [Did (Issue ls); Settled ls (Fulfilled devices)]
        ++ probeStarts devices ++ tail.
Proof.
  intros ls Hls. unfold run, getAndroidFridaHosts.
  rewrite exec_bind, (exec_call w ls). cbv zeta. rewrite Hls.
  set (t := let* result := all (map (fun deviceId => getHostStatus deviceId) devices) in
            Ret result).
  destruct (exec_starts_with_syncEffects w t
              (h ++ [Did (Issue ls); Settled ls (Fulfilled devices)]) 0) as [tail Htail].
  assert (Hsync : map Did (syncEffects t) = probeStarts devices).
  { destruct (syncEffects_all_getHostStatus devices) as [E1 [-> | E2]]; [reflexivity|].
    subst t. destruct (syncEffects_bind _ (fun result => Ret result) E2) as [-> _].
    exact E1. }
  rewrite Hsync in Htail. exists tail. rewrite Htail, <- app_assoc. reflexivity.
Qed.

Lemma getAndroidFridaHosts_probes_all_at_once_witness :
  let devices := ["emulator-5554"; "R58M123ABC"] in
  let w := withDevices devices (deviceWorld false false [] true false) in
  exists tail,
    snd (run w getAndroidFridaHosts []) =
      [] ++ [Did (Issue GetConnectedDevices);
             Settled GetConnectedDevices (Fulfilled devices)]
         ++ probeStarts devices ++ tail.
Proof.
  intros devices w.
  apply (getAndroidFridaHosts_probes_all_at_once w [] devices).
  reflexivity.
Defined.

(** ** More on the status of a host *)

(** X7.  The failures of the port probes and of the installed check stay
    inside [getHostStatus]; a rejection of the rooted check is the only
    one that gets out, and only when both ports were closed and the
    binary was not found. *)
Theorem getHostStatus_rejected_by_rooted_check_only (w : World) (deviceId : string)
    (h h' : History) (e : Error) :
  let p1 := OpenTcp deviceId FRIDA_DEFAULT_PORT in
  let p2 := OpenTcp deviceId FRIDA_ALTERNATE_PORT in
  let rd := Readdir deviceId ANDROID_DEVICE_HTK_PATH in
  run w (getHostStatus deviceId) h = (Rejected e, h') ->
  exists pre e1 e2 o3,
    h' = pre ++ [Settled (IsProbablyRooted deviceId) (Rejected e)] /\
    In (Settled p1 (Rejected e1)) pre /\
    In (Settled p2 (Rejected e2)) pre /\
    In (Settled rd o3) pre /\ installedFrom o3 = false.
Proof.
  intros p1 p2 rd. unfold run. rewrite exec_getHostStatus.
  unfold portPhase. cbv zeta. fold p1 p2 rd.
  set (rt := IsProbablyRooted deviceId).
  set (h0 := h ++ [Did (Issue p1); Did (Issue p2)]).
  destruct (first w h0 0).
  - set (o1 := answer w p1 h0).
    set (o2 := answer w p2 _).
    set (o3 := answer w rd _).
    set (o4 := answer w rt _).
    clearbody o4; clearbody o3; clearbody o2; clearbody o1.
    destruct o1 as [c1|e1], o2 as [c2|e2]; cbn [fulfilled orb closing];
      try discriminate.
    destruct (installedFrom o3) eqn:Hinst; try discriminate.
    destruct o4 as [[|]|e4]; try discriminate.
    cbn [fst]. intros Hrun. injection Hrun as <- <-.
    exists (((h0 ++ [Settled p1 (Rejected e1)]) ++ [Settled p2 (Rejected e2)])
              ++ [Did (Issue rd); Settled rd o3] ++ [Did (Issue rt)]), e1, e2, o3.
    split; [rewrite <- !app_assoc; reflexivity|].
    rewrite !in_app_iff. cbn [In]. auto 10.
  - set (o2 := answer w p2 h0).
    set (o1 := answer w p1 _).
    set (o3 := answer w rd _).
    set (o4 := answer w rt _).
    clearbody o4; clearbody o3; clearbody o1; clearbody o2.
    destruct o1 as [c1|e1], o2 as [c2|e2]; cbn [fulfilled orb closing];
      try discriminate.
    destruct (installedFrom o3) eqn:Hinst; try discriminate.
    destruct o4 as [[|]|e4]; try discriminate.
    cbn [fst]. intros Hrun. injection Hrun as <- <-.
    exists (((h0 ++ [Settled p2 (Rejected e2)]) ++ [Settled p1 (Rejected e1)])
              ++ [Did (Issue rd); Settled rd o3] ++ [Did (Issue rt)]), e1, e2, o3.
    split; [rewrite <- !app_assoc; reflexivity|].
    rewrite !in_app_iff. cbn [In]. auto 10.
Qed.

Lemma getHostStatus_rejected_by_rooted_check_only_witness :
  exists pre e1 e2 o3,
    snd (run offlineWorld (getHostStatus "emulator-5554") []) =
      pre ++ [Settled (IsProbablyRooted "emulator-5554") (Rejected "device offline")] /\
    In (Settled (OpenTcp "emulator-5554" FRIDA_DEFAULT_PORT) (Rejected e1)) pre /\
    In (Settled (OpenTcp "emulator-5554" FRIDA_ALTERNATE_PORT) (Rejected e2)) pre /\
    In (Settled (Readdir "emulator-5554" ANDROID_DEVICE_HTK_PATH) o3) pre /\
    installedFrom o3 = false.
Proof.
  apply (getHostStatus_rejected_by_rooted_check_only offlineWorld "emulator-5554" []).
  reflexivity.
Defined.

(** X8.  A resolution of the status asks only its own device, at most four
    requests and at least the two port probes; and every connection that
    a port probe opens gets its error handler and is ended. *)
Theorem getHostStatus_closes_connections (w : World) (deviceId : string) (h : History) :
  let p1 := OpenTcp deviceId FRIDA_DEFAULT_PORT in
  let p2 := OpenTcp deviceId FRIDA_ALTERNATE_PORT in
  let rd := Readdir deviceId ANDROID_DEVICE_HTK_PATH in
  let rt := IsProbablyRooted deviceId in
  exists ext,
    snd (run w (getHostStatus deviceId) h) = h ++ ext /\
    (forall c, In (Did (Issue c)) ext -> c = p1 \/ c = p2 \/ c = rd \/ c = rt) /\
    (2 <= issued (fun _ => true) ext <= 4)%nat /\
    (forall conn,
       In (Settled p1 (Fulfilled conn)) ext \/ In (Settled p2 (Fulfilled conn)) ext ->
       In (Did (ConnOnError conn)) ext /\ In (Did (ConnEnd conn)) ext).
Proof.
  intros p1 p2 rd rt. unfold run. rewrite exec_getHostStatus.
  unfold portPhase. cbv zeta. fold p1 p2 rd rt.
  set (h0 := h ++ [Did (Issue p1); Did (Issue p2)]).
  destruct (first w h0 0).
  - set (o1 := answer w p1 h0).
    set (o2 := answer w p2 _).
    set (o3 := answer w rd _).
    set (o4 := answer w rt _).
    clearbody o4; clearbody o3; clearbody o2; clearbody o1.
    subst h0 p1 p2 rd rt.
    destruct o1 as [c1|e1], o2 as [c2|e2]; cbn [fulfilled orb closing];
      try destruct (installedFrom o3); try destruct o4 as [[|]|e4];
      cbn [fst snd]; rewrite <- ?app_assoc; cbn [app];
      (eexists; split; [reflexivity|]);
      (split; [intros c Hin; event_inv; auto|]);
      (split; [cbn; lia|]);
      intros conn Hin; event_inv; cbn; auto 12.
  - set (o2 := answer w p2 h0).
    set (o1 := answer w p1 _).
    set (o3 := answer w rd _).
    set (o4 := answer w rt _).
    clearbody o4; clearbody o3; clearbody o1; clearbody o2.
    subst h0 p1 p2 rd rt.
    destruct o1 as [c1|e1], o2 as [c2|e2]; cbn [fulfilled orb closing];
      try destruct (installedFrom o3); try destruct o4 as [[|]|e4];
      cbn [fst snd]; rewrite <- ?app_assoc; cbn [app];
      (eexists; split; [reflexivity|]);
      (split; [intros c Hin; event_inv; auto|]);
      (split; [cbn; lia|]);
      intros conn Hin; event_inv; cbn; auto 12.
Qed.

(** X9.  Which of the two port probes settles first makes no difference to
    the status: two worlds that give the same answers, whatever the
    history, resolve the same status, however each of them orders the
    settlements. *)
Theorem getHostStatus_order_irrelevant (w w' : World) (deviceId : string)
    (h h' : History) :
  (forall c h1 h2, answer w c h1 = answer w' c h2) ->
  fst (run w (getHostStatus deviceId) h) = fst (run w' (getHostStatus deviceId) h').
Proof.
  intros Hsame. unfold run. rewrite !exec_getHostStatus. unfold portPhase. cbv zeta.
  assert (Hany : forall c h1, answer w c h1 = answer w c []).
  { intros c h1. rewrite (Hsame c h1 []), (Hsame c [] []). reflexivity. }
  assert (Hany' : forall c h1, answer w' c h1 = answer w c []).
  { intros c h1. symmetry. apply Hsame. }
  set (p1 := OpenTcp deviceId FRIDA_DEFAULT_PORT).
  set (p2 := OpenTcp deviceId FRIDA_ALTERNATE_PORT).
  set (rd := Readdir deviceId ANDROID_DEVICE_HTK_PATH).
  set (rt := IsProbablyRooted deviceId).
  destruct (first w _ 0), (first w' _ 0);
    repeat match goal with
      | |- context [answer w' ?c ?hh] => rewrite (Hany' c hh)
      | |- context [answer w ?c (?x ++ ?y)] => rewrite (Hany c (x ++ y))
      end;
    (destruct (answer w p1 []) as [c1|e1], (answer w p2 []) as [c2|e2];
     cbn [fulfilled orb fst]; try reflexivity;
     destruct (installedFrom (answer w rd [])); try reflexivity;
     destruct (answer w rt []) as [[|]|e4]; reflexivity).
Qed.

Lemma getHostStatus_order_irrelevant_witness :
  fst (run (deviceWorld false true [] false true) (getHostStatus "emulator-5554") []) =
  fst (run (deviceWorld false true [] false false) (getHostStatus "emulator-5554")
         [Did (ConsoleLog "earlier")]).
Proof.
  apply (getHostStatus_order_irrelevant
           (deviceWorld false true [] false true)
           (deviceWorld false true [] false false)).
  intros c h1 h2. reflexivity.
Defined.

(** ** The installed check *)

Lemma testbit_ALL_X_PERMS (i : Z) :
  Z.testbit ALL_X_PERMS i = (Z.eqb i 0 || Z.eqb i 3 || Z.eqb i 6)%bool.
Proof.
  unfold ALL_X_PERMS.
  destruct (Z.lt_ge_cases i 0) as [Hneg|Hpos].
  - rewrite Z.testbit_neg_r by exact Hneg.
    destruct (Z.eqb_spec i 0), (Z.eqb_spec i 3), (Z.eqb_spec i 6); cbn; lia.
  - destruct (Z.lt_ge_cases 6 i) as [Hhigh|Hlow].
    + rewrite Z.bits_above_log2 by (cbn; lia).
      destruct (Z.eqb_spec i 0), (Z.eqb_spec i 3), (Z.eqb_spec i 6); cbn; lia.
    + assert (Hi : i = 0 \/ i = 1 \/ i = 2 \/ i = 3 \/ i = 4 \/ i = 5 \/ i = 6) by lia.
      destruct Hi as [->|[->|[->|[->|[->|[->| ->]]]]]]; reflexivity.
Qed.

Lemma land_ALL_X_PERMS (mode : Z) :
  negb (Z.eqb (Z.land mode ALL_X_PERMS) 0) = true <->
  Z.testbit mode 0 = true \/ Z.testbit mode 3 = true \/ Z.testbit mode 6 = true.
Proof.
  rewrite negb_true_iff, Z.eqb_neq. split.
  - intros Hne.
    destruct (Z.testbit mode 0) eqn:H0; [auto|].
    destruct (Z.testbit mode 3) eqn:H3; [auto|].
    destruct (Z.testbit mode 6) eqn:H6; [auto|].
    exfalso. apply Hne. apply Z.bits_inj'. intros i _.
    rewrite Z.land_spec, testbit_ALL_X_PERMS, Z.bits_0.
    destruct (Z.eqb_spec i 0) as [->|_]; [rewrite H0; reflexivity|].
    destruct (Z.eqb_spec i 3) as [->|_]; [rewrite H3; reflexivity|].
    destruct (Z.eqb_spec i 6) as [->|_]; [rewrite H6; reflexivity|].
    apply andb_false_r.
  - intros Hbit Hzero.
    assert (Hall : forall i, Z.testbit mode i && Z.testbit ALL_X_PERMS i = false).
    { intros i. rewrite <- Z.land_spec, Hzero. apply Z.bits_0. }
    destruct Hbit as [Hb|[Hb|Hb]];
      [specialize (Hall 0)|specialize (Hall 3)|specialize (Hall 6)];
      rewrite Hb in Hall; discriminate Hall.
Qed.

(** X10.  The installed check never throws.  It is true exactly when the
    directory can be read and has an entry with the name of the binary
    that somebody may execute: the owner, the group or the others. *)
Theorem isFridaInstalled_executable_binary (w : World) deviceClient (h : History) :
  let rd := Readdir deviceClient ANDROID_DEVICE_HTK_PATH in
  let o := answer w rd (h ++ [Did (Issue rd)]) in
  exists installed,
    run w (isFridaInstalled deviceClient) h
      = (Fulfilled installed, h ++ [Did (Issue rd); Settled rd o]) /\
    (installed = true <->
     exists entries entry,
       o = Fulfilled entries /\ In entry entries /\
       Entry.name entry = "adirf-server" /\
       (Z.testbit (Entry.mode entry) 0 = true \/
        Z.testbit (Entry.mode entry) 3 = true \/
        Z.testbit (Entry.mode entry) 6 = true)).
Proof.
  intros rd o. exists (installedFrom o). unfold run.
  rewrite exec_isFridaInstalled. fold rd. fold o. split; [reflexivity|].
  destruct o as [entries|e]; cbn [installedFrom].
  - rewrite existsb_exists. split.
    + intros [entry [Hin Hentry]]. apply andb_true_iff in Hentry as [Hname Hmode].
      exists entries, entry. split; [reflexivity|]. split; [exact Hin|].
      split; [apply String.eqb_eq; exact Hname|].
      apply land_ALL_X_PERMS. exact Hmode.
    + intros [entries' [entry [Hentries [Hin [Hname Hmode]]]]].
      injection Hentries as <-. exists entry. split; [exact Hin|].
      apply andb_true_iff. split; [apply String.eqb_eq; exact Hname|].
      apply land_ALL_X_PERMS. exact Hmode.
  - split; [discriminate|]. intros [entries [entry [Hentries _]]]. discriminate.
Qed.

(** ** More on Install *)

(** X11.  When the architecture is chosen, Install fetches the server for it,
    pushes the stream it got to the path of the binary with mode 0o555,
    and settles as the push does; when the fetch fails, Install fails
    with that error and nothing is pushed.  A file with the name and the
    mode that are pushed passes the installed check. *)
Theorem setupAndroidHost_pushes_what_it_fetched (w : World) hostId h props
    unknown abi rest :
  let gp := GetProperties hostId in
  let h1 := h ++ [Did (Issue gp); Settled gp (Fulfilled props)] in
  let dl := DownloadFridaServer "16.1.7" "android" (get ABI_ARCH_MAP abi) in
  let od := answer w dl (h1 ++ [Did (Issue dl)]) in
  answer w gp (h ++ [Did (Issue gp)]) = Fulfilled props ->
  supportedAbisOf props = Ret (unknown ++ abi :: rest) ->
  Forall (fun a => recognized a = false) unknown ->
  recognized abi = true ->
  match od with
  | Rejected e =>
      run w (setupAndroidHost hostId) h =
        (Rejected e, h1 ++ [Did (Issue dl); Settled dl od])
  | Fulfilled serverStream =>
      let ps := Push hostId serverStream "/data/local/tmp/.httptoolkit/adirf-server" 365 in
      let op := answer w ps (h1 ++ [Did (Issue dl); Settled dl od; Did (Issue ps)]) in
      run w (setupAndroidHost hostId) h =
        (op, h1 ++ [Did (Issue dl); Settled dl od; Did (Issue ps); Settled ps op])
  end /\
  forall entries,
    In (Entry.mk "adirf-server" 365) entries -> installedFrom (Fulfilled entries) = true.
Proof.
  intros gp h1 dl od Hprops Habis Hunknown Habi. split.
  - unfold run.
    rewrite (exec_setupAndroidHost w hostId h 0 props _ Hprops Habis). cbv zeta.
    rewrite (firstKnownAbiOf_skips unknown abi rest Hunknown Habi).
    rewrite (recognized_not_falsy abi Habi).
    change (default EmptyString (Some abi)) with abi.
    fold gp. fold h1. change FRIDA_VERSION with "16.1.7". fold dl.
    rewrite exec_bind, (exec_call w dl). cbv zeta. fold od.
    destruct od as [serverStream|e]; [|reflexivity].
    rewrite (exec_call w (Push hostId serverStream FRIDA_BINARY_PATH 365)).
    cbv zeta. rewrite <- !app_assoc. reflexivity.
  - intros entries Hin. cbn [installedFrom]. apply existsb_exists.
    exists (Entry.mk "adirf-server" 365). split; [exact Hin|reflexivity].
Qed.

Lemma setupAndroidHost_pushes_what_it_fetched_witness :
  let props : gmap string string := {[ "ro.product.cpu.abilist" := "x86_64,x86" ]} in
  let hostId := "emulator-5554" in
  run (propertiesWorld props) (setupAndroidHost hostId) [] =
    (Fulfilled tt,
     [] ++ [Did (Issue (GetProperties hostId));
            Settled (GetProperties hostId) (Fulfilled props)]
        ++ [Did (Issue (DownloadFridaServer "16.1.7" "android" (Some x86_64)));
            Settled (DownloadFridaServer "16.1.7" "android" (Some x86_64)) (Fulfilled 1%nat);
            Did (Issue (Push hostId 1%nat "/data/local/tmp/.httptoolkit/adirf-server" 365));
            Settled (Push hostId 1%nat "/data/local/tmp/.httptoolkit/adirf-server" 365)
              (Fulfilled tt)]).
Proof.
  intros props hostId.
  apply (setupAndroidHost_pushes_what_it_fetched (propertiesWorld props) hostId []
           props [] "x86_64" ["x86"]).
  - reflexivity.
  - vm_compute. reflexivity.
  - constructor.
  - reflexivity.
Defined.

(** X12.  Install stops at the properties when they cannot be read, and when
    they hold neither the ABI list nor the single ABI: it is rejected
    with the error of the request, or with the TypeError of trimming
    nothing, and no server is fetched. *)
Theorem setupAndroidHost_without_abi_properties (w : World) hostId h :
  let gp := GetProperties hostId in
  let o := answer w gp (h ++ [Did (Issue gp)]) in
  let stopped := h ++ [Did (Issue gp); Settled gp o] in
  (forall e, o = Rejected e ->
     run w (setupAndroidHost hostId) h = (Rejected e, stopped)) /\
  (forall props : gmap string string,
     o = Fulfilled props ->
     props !! "ro.product.cpu.abilist" = None ->
     props !! "ro.product.cpu.abi" = None ->
     run w (setupAndroidHost hostId) h =
       (Rejected "Cannot read properties of undefined (reading 'trim')", stopped)).
Proof.
  intros gp o stopped. unfold run, setupAndroidHost, getDevice.
  rewrite exec_bind, (exec_call w gp). cbv zeta. fold o. fold stopped.
  split.
  - intros e ->. reflexivity.
  - intros props -> Hlist Habi. rewrite exec_bind. unfold supportedAbisOf.
    rewrite Hlist, Habi. reflexivity.
Qed.

Lemma setupAndroidHost_without_abi_properties_witness :
  let props : gmap string string := {[ "ro.product.model" := "Pixel 7" ]} in
  run (propertiesWorld props) (setupAndroidHost "emulator-5554") [] =
    (Rejected "Cannot read properties of undefined (reading 'trim')",
     [] ++ [Did (Issue (GetProperties "emulator-5554"));
            Settled (GetProperties "emulator-5554") (Fulfilled props)]).
Proof.
  intros props.
  apply (proj2 (setupAndroidHost_without_abi_properties
                  (propertiesWorld props) "emulator-5554" []) props).
  - reflexivity.
  - vm_compute. reflexivity.
  - vm_compute. reflexivity.
Defined.

(** X13.  The single ABI property counts only when the list property is
    absent: then Install fetches for the architecture of that ABI,
    trimmed.  A list property that is the empty string is not absent: the
    list is then one empty name, and Install fails whatever the single
    ABI is. *)
Theorem setupAndroidHost_single_abi_fallback (w : World) hostId h
    (props : gmap string string) :
  let gp := GetProperties hostId in
  let h1 := h ++ [Did (Issue gp); Settled gp (Fulfilled props)] in
  answer w gp (h ++ [Did (Issue gp)]) = Fulfilled props ->
  (forall abi,
     props !! "ro.product.cpu.abilist" = None ->
     props !! "ro.product.cpu.abi" = Some abi ->
     recognized (Str.trim abi) = true ->
     exists arch tail,
       get ABI_ARCH_MAP (Str.trim abi) = Some arch /\
       snd (run w (setupAndroidHost hostId) h) =
         h1 ++ Did (Issue (DownloadFridaServer "16.1.7" "android" (Some arch))) :: tail) /\
  (props !! "ro.product.cpu.abilist" = Some EmptyString ->
   run w (setupAndroidHost hostId) h =
     (Rejected "Did not recognize any device ABIs from ", h1)).
Proof.
  intros gp h1 Hprops. split.
  - intros abi Hlist Habi Hrec.
    assert (Habis : supportedAbisOf props = Ret ([] ++ Str.trim abi :: [])).
    { unfold supportedAbisOf. rewrite Hlist, Habi. reflexivity. }
    destruct (includes_keys_get ABI_ARCH_MAP _ Hrec) as [arch Harch].
    unfold run.
    rewrite (exec_setupAndroidHost w hostId h 0 props _ Hprops Habis). cbv zeta.
    rewrite (firstKnownAbiOf_skips [] (Str.trim abi) [] (List.Forall_nil _) Hrec).
    rewrite (recognized_not_falsy _ Hrec).
    change (default EmptyString (Some (Str.trim abi))) with (Str.trim abi).
    rewrite Harch. fold gp. fold h1.
    destruct (exec_fetch_and_push w hostId (Some arch) h1 0) as [tail [Htail _]].
    exists arch, tail. split; [reflexivity|]. exact Htail.
  - intros Hlist.
    assert (Habis : supportedAbisOf props = Ret [EmptyString]).
    { unfold supportedAbisOf. rewrite Hlist. reflexivity. }
    unfold run.
    rewrite (exec_setupAndroidHost_unrecognized w hostId h 0 props _ Hprops Habis).
    + reflexivity.
    + repeat constructor.
Qed.

Lemma setupAndroidHost_single_abi_fallback_witness :
  let single : gmap string string := {[ "ro.product.cpu.abi" := " x86_64 " ]} in
  let empty : gmap string string :=
    {[ "ro.product.cpu.abilist" := EmptyString; "ro.product.cpu.abi" := "x86" ]} in
  let gp := GetProperties "emulator-5554" in
  (exists arch tail,
     get ABI_ARCH_MAP (Str.trim " x86_64 ") = Some arch /\
     snd (run (propertiesWorld single) (setupAndroidHost "emulator-5554") []) =
       ([] ++ [Did (Issue gp); Settled gp (Fulfilled single)])
         ++ Did (Issue (DownloadFridaServer "16.1.7" "android" (Some arch))) :: tail) /\
  run (propertiesWorld empty) (setupAndroidHost "emulator-5554") [] =
    (Rejected "Did not recognize any device ABIs from ",
     [] ++ [Did (Issue gp); Settled gp (Fulfilled empty)]).
Proof.
  intros single empty gp. split.
  - apply (proj1 (setupAndroidHost_single_abi_fallback
                    (propertiesWorld single) "emulator-5554" [] single eq_refl)).
    + vm_compute. reflexivity.
    + vm_compute. reflexivity.
    + vm_compute. reflexivity.
  - apply (proj2 (setupAndroidHost_single_abi_fallback
                    (propertiesWorld empty) "emulator-5554" [] empty eq_refl)).
    vm_compute. reflexivity.
Defined.

Example setupAndroidHost_single_abi :
  let props : gmap string string := {[ "ro.product.cpu.abi" := " x86_64 " ]} in
  fst (run (propertiesWorld props) (setupAndroidHost "emulator-5554") []) = Fulfilled tt /\
  In (Did (Issue (DownloadFridaServer "16.1.7" "android" (Some x86_64))))
     (snd (run (propertiesWorld props) (setupAndroidHost "emulator-5554") [])).
Proof. vm_compute. split; [reflexivity|]. auto. Qed.

(** *** The error names the list as the device gave it *)

Lemma split_not_nil (sep : ascii) (s : string) : Str.split sep s <> [].
Proof.
  destruct s as [|c s]; cbn; [discriminate|].
  destruct (Ascii.eqb c sep); [discriminate|].
  destruct (Str.split sep s); discriminate.
Qed.

(** Splitting at a separator and joining with it gives the string back. *)
Lemma join_split (sep : ascii) (s : string) :
  Str.join (String sep EmptyString) (Str.split sep s) = s.
Proof.
  induction s as [|c s IH]; [reflexivity|].
  cbn [Str.split].
  destruct (Ascii.eqb_spec c sep) as [->|Hne].
  - destruct (Str.split sep s) as [|w ws] eqn:Hsplit.
    + exfalso. exact (split_not_nil sep s Hsplit).
    + cbn [Str.join] in *. rewrite IH. reflexivity.
  - destruct (Str.split sep s) as [|w ws] eqn:Hsplit.
    + exfalso. exact (split_not_nil sep s Hsplit).
    + destruct ws as [|y l]; cbn [Str.join] in *; rewrite <- IH; reflexivity.
Qed.

Lemma split_noWhiteSpace (sep : ascii) (s : string) :
  noWhiteSpace s = true -> Forall (fun x => noWhiteSpace x = true) (Str.split sep s).
Proof.
  induction s as [|c s IH]; cbn [Str.split noWhiteSpace].
  - repeat constructor.
  - intros Hc. apply andb_true_iff in Hc as [Hc Hs]. specialize (IH Hs).
    destruct (Ascii.eqb c sep).
    + constructor; [reflexivity|exact IH].
    + destruct (Str.split sep s) as [|x xs]; [repeat constructor; cbn; rewrite Hc; reflexivity|].
      inversion IH as [|? ? Hx Hxs]; subst.
      constructor; [cbn; rewrite Hc, Hx; reflexivity|exact Hxs].
Qed.

Lemma rev_app_rev_app (s1 s2 s3 : string) :
  String.rev_app (String.rev_app s1 s2) s3 = String.rev_app s2 (s1 +:+ s3).
Proof.
  revert s2 s3. induction s1 as [|c s1 IH]; intros s2 s3; cbn; [reflexivity|].
  rewrite IH. reflexivity.
Qed.

Lemma rev_involutive (s : string) : String.rev (String.rev s) = s.
Proof.
  unfold String.rev. rewrite rev_app_rev_app. cbn [String.rev_app].
  induction s as [|c s IH]; [reflexivity|].
  change (String c s +:+ EmptyString) with (String c (s +:+ EmptyString)).
  rewrite IH. reflexivity.
Qed.

Lemma rev_app_noWhiteSpace (s1 s2 : string) :
  noWhiteSpace s1 = true -> noWhiteSpace s2 = true ->
  noWhiteSpace (String.rev_app s1 s2) = true.
Proof.
  revert s2. induction s1 as [|c s1 IH]; intros s2 H1 H2; cbn in *; [exact H2|].
  apply andb_true_iff in H1 as [Hc H1]. apply IH; [exact H1|].
  cbn. rewrite Hc, H2. reflexivity.
Qed.

Lemma trimStart_noWhiteSpace (s : string) :
  noWhiteSpace s = true -> Str.trimStart s = s.
Proof.
  destruct s as [|c s]; cbn; [reflexivity|].
  intros H. apply andb_true_iff in H as [Hc _].
  apply negb_true_iff in Hc. rewrite Hc. reflexivity.
Qed.

(** Trimming leaves a string without white space as it is. *)
Lemma trim_noWhiteSpace (s : string) :
  noWhiteSpace s = true -> Str.trim s = s.
Proof.
  intros H. unfold Str.trim, Str.trimEnd.
  rewrite (trimStart_noWhiteSpace s H).
  rewrite trimStart_noWhiteSpace.
  - apply rev_involutive.
  - apply rev_app_noWhiteSpace; [exact H|reflexivity].
Qed.

(** X14.  When the ABI list of the device has no white space and none of its
    ABIs is recognized, the error of Install ends with the list exactly as
    the device reported it. *)
Theorem setupAndroidHost_error_repeats_abilist (w : World) hostId h
    (props : gmap string string) (abilist : string) :
  let gp := GetProperties hostId in
  answer w gp (h ++ [Did (Issue gp)]) = Fulfilled props ->
  props !! "ro.product.cpu.abilist" = Some abilist ->
  noWhiteSpace abilist = true ->
  Forall (fun a => recognized a = false) (Str.split "," abilist) ->
  run w (setupAndroidHost hostId) h =
    (Rejected ("Did not recognize any device ABIs from " +:+ abilist),
     h ++ [Did (Issue gp); Settled gp (Fulfilled props)]).
Proof.
  intros gp Hprops Hlist Hclean Hnone.
  assert (Htrim : map Str.trim (Str.split "," abilist) = Str.split "," abilist).
  { pose proof (split_noWhiteSpace "," abilist Hclean) as Hall.
    revert Hall. generalize (Str.split "," abilist). intros l Hall.
    induction Hall as [|x xs Hx _ IH]; cbn [map]; [reflexivity|].
    rewrite (trim_noWhiteSpace x Hx), IH. reflexivity. }
  assert (Habis : supportedAbisOf props = Ret (Str.split "," abilist)).
  { unfold supportedAbisOf. rewrite Hlist, Htrim. reflexivity. }
  unfold run.
  rewrite (exec_setupAndroidHost_unrecognized w hostId h 0 props _ Hprops Habis Hnone).
  change "," with (String "," EmptyString) at 1.
  rewrite join_split. reflexivity.
Qed.

Lemma setupAndroidHost_error_repeats_abilist_witness :
  let props : gmap string string := {[ "ro.product.cpu.abilist" := "armeabi-v7a,mips64,,riscv64" ]} in
  run (propertiesWorld props) (setupAndroidHost "emulator-5554") [] =
    (Rejected "Did not recognize any device ABIs from armeabi-v7a,mips64,,riscv64",
     [] ++ [Did (Issue (GetProperties "emulator-5554"));
            Settled (GetProperties "emulator-5554") (Fulfilled props)]).
Proof.
  intros props.
  apply (setupAndroidHost_error_repeats_abilist (propertiesWorld props)
           "emulator-5554" [] props "armeabi-v7a,mips64,,riscv64").
  - reflexivity.
  - vm_compute. reflexivity.
  - reflexivity.
  - repeat constructor.
Defined.

(** ** More on Launch *)

(** X15.  Launch stops before it polls when root is not to be had, or when the
    server cannot be started: without a root command it fails with its
    own error; a failure of the request for root or of the shell goes to
    the caller as it is.  No port is probed and nothing is logged. *)
Theorem launchAndroidHost_stops_before_polling (timeoutError : Error) (w : World)
    (hostId : string) (h : History) :
  let rc := GetRootCommand hostId in
  let o := answer w rc (h ++ [Did (Issue rc)]) in
  let stopped := h ++ [Did (Issue rc); Settled rc o] in
  let launch := run w (launchAndroidHost timeoutError hostId) h in
  (o = Fulfilled None ->
   launch = (Rejected "Couldn't get root access to launch Frida Server", stopped)) /\
  (forall e, o = Rejected e -> launch = (Rejected e, stopped)) /\
  (forall runAsRoot e,
     let sh := Shell hostId
                 (runAsRoot ["/data/local/tmp/.httptoolkit/adirf-server"; "-l";
                             "127.0.0.1:24072"]) in
     o = Fulfilled (Some runAsRoot) ->
     answer w sh (stopped ++ [Did (Issue sh)]) = Rejected e ->
     launch = (Rejected e, stopped ++ [Did (Issue sh); Settled sh (Rejected e)])).
Proof.
  intros rc o stopped launch. subst launch.
  unfold run, launchAndroidHost, getDevice.
  rewrite exec_bind, (exec_call w rc). cbv zeta. fold o. fold stopped.
  split; [|split].
  - intros Ho. rewrite Ho. reflexivity.
  - intros e Ho. rewrite Ho. reflexivity.
  - intros runAsRoot e Ho Hsh. rewrite Ho.
    set (sh := Shell hostId
                 (runAsRoot ["/data/local/tmp/.httptoolkit/adirf-server"; "-l";
                             "127.0.0.1:24072"])) in *.
    rewrite exec_bind, (exec_call w sh). cbv zeta. rewrite Hsh. reflexivity.
Qed.

Lemma launchAndroidHost_stops_before_polling_witness :
  let hostId := "emulator-5554" in
  let rc := GetRootCommand hostId in
  let su := fun command : list string => "su" :: "-c" :: command in
  let sh := Shell hostId
              ["su"; "-c"; "/data/local/tmp/.httptoolkit/adirf-server"; "-l";
               "127.0.0.1:24072"] in
  let launch w := run w (launchAndroidHost "Wait loop failed" hostId) [] in
  launch (rootWorld (Fulfilled None) (Fulfilled 2%nat)) =
    (Rejected "Couldn't get root access to launch Frida Server",
     [] ++ [Did (Issue rc); Settled rc (Fulfilled None)]) /\
  launch (rootWorld (Rejected "device offline") (Fulfilled 2%nat)) =
    (Rejected "device offline",
     [] ++ [Did (Issue rc); Settled rc (Rejected "device offline")]) /\
  launch (rootWorld (Fulfilled (Some su)) (Rejected "closed")) =
    (Rejected "closed",
     ([] ++ [Did (Issue rc); Settled rc (Fulfilled (Some su))])
       ++ [Did (Issue sh); Settled sh (Rejected "closed")]).
Proof.
  intros hostId rc su sh launch. split; [|split].
  - apply (proj1 (launchAndroidHost_stops_before_polling "Wait loop failed"
                    (rootWorld (Fulfilled None) (Fulfilled 2%nat)) hostId [])).
    reflexivity.
  - apply (proj1 (proj2 (launchAndroidHost_stops_before_polling "Wait loop failed"
                           (rootWorld (Rejected "device offline") (Fulfilled 2%nat))
                           hostId []))).
    reflexivity.
  - apply (proj2 (proj2 (launchAndroidHost_stops_before_polling "Wait loop failed"
                           (rootWorld (Fulfilled (Some su)) (Rejected "closed"))
                           hostId [])) su "closed"); reflexivity.
Defined.

(** Launch as it is modelled with the poll of the spec is Launch around
    that poll. *)
Lemma launchAndroidHost_around (timeoutError : Error) (hostId : string) :
  launchAndroidHost timeoutError hostId
    = launchAndroidHostWith (waitUntil timeoutError) hostId.
Proof. reflexivity. Qed.

(** X16.  Once the shell has started the server, Launch pipes its output
    and runs the poll, and what follows is decided by how the poll
    settles, whatever poll is imported as [waitUntil]: when the poll is
    fulfilled, so is Launch, and it does nothing more; when the poll is
    rejected, Launch logs the error of the poll, last of all, and is
    rejected with the error that names the host, which is not the error
    of the poll. *)
Theorem launchAndroidHost_fails_with_host_id
    (waitUntil : Z -> nat -> Task bool -> Task unit) (w : World)
    (hostId : string) (h : History) (runAsRoot : RootCommand) (stream : Stream) :
  let rc := GetRootCommand hostId in
  let sh := Shell hostId
              (runAsRoot ["/data/local/tmp/.httptoolkit/adirf-server"; "-l";
                          "127.0.0.1:24072"]) in
  let started := h ++ [Did (Issue rc); Settled rc (Fulfilled (Some runAsRoot));
                       Did (Issue sh); Settled sh (Fulfilled stream);
                       Did (Pipe stream)] in
  let poll := run w (waitUntil 500 10%nat (readinessProbe hostId)) started in
  answer w rc (h ++ [Did (Issue rc)]) = Fulfilled (Some runAsRoot) ->
  answer w sh (h ++ [Did (Issue rc); Settled rc (Fulfilled (Some runAsRoot));
                     Did (Issue sh)]) = Fulfilled stream ->
  run w (launchAndroidHostWith waitUntil hostId) h =
    match fst poll with
    | Fulfilled _ => (Fulfilled tt, snd poll)
    | Rejected e =>
        (Rejected ("Failed to launch Frida server for " +:+ hostId),
         snd poll ++ [Did (ConsoleLog e)])
    end.
Proof.
  intros rc sh started poll Hroot Hshell. subst poll.
  unfold run, launchAndroidHostWith, getDevice.
  change (catch (let* status := getHostStatus hostId in
                 Ret (HostState_eqb (FridaHost.state status) available))
                (fun e => do (ConsoleLog e);; Ret false))
    with (readinessProbe hostId).
  rewrite exec_bind, (exec_call w rc). cbv zeta. rewrite Hroot.
  rewrite exec_bind, (exec_call w sh). cbv zeta.
  rewrite <- app_assoc. cbn [app]. rewrite Hshell.
  rewrite exec_bind. cbn [do exec]. rewrite <- !app_assoc. cbn [app]. fold started.
  rewrite exec_catch.
  destruct (exec w (waitUntil 500 10%nat (readinessProbe hostId)) started 0%nat)
    as [[o hf] k].
  destruct o as [[]|e]; reflexivity.
Qed.

Lemma launchAndroidHost_fails_with_host_id_witness :
  let w := withRoot offlineWorld in
  let launched :=
    run w (launchAndroidHostWith (waitUntil "Wait loop failed") "emulator-5554") [] in
  fst launched = Rejected "Failed to launch Frida server for emulator-5554" /\
  last (snd launched) = Some (Did (ConsoleLog "Wait loop failed")).
Proof.
  intros w launched. subst launched.
  rewrite (launchAndroidHost_fails_with_host_id (waitUntil "Wait loop failed") w
             "emulator-5554" [] (fun command => "su" :: "-c" :: command) 2%nat);
    [|reflexivity|reflexivity].
  vm_compute. split; reflexivity.
Defined.

(** ** More on the cached lookup *)

Lemma settle_inactive p r this :
  existsb (Nat.eqb p) (FridaAndroidInterceptor.lookups this) = false ->
  FridaAndroidInterceptor.settle p r this = this.
Proof.
  intros Hp. unfold FridaAndroidInterceptor.settle. rewrite Hp. reflexivity.
Qed.

Lemma active_slot p this :
  CacheInv this ->
  existsb (Nat.eqb p) (FridaAndroidInterceptor.lookups this) = true ->
  FridaAndroidInterceptor._fridaTargetsPromise this = Some p.
Proof.
  unfold CacheInv. intros Hinv Hp.
  destruct (FridaAndroidInterceptor._fridaTargetsPromise this) as [q|];
    destruct Hinv as [Hl Ha]; rewrite Hl in Hp; cbn in Hp; [|discriminate].
  rewrite orb_false_r in Hp. apply Nat.eqb_eq in Hp. rewrite Hp. reflexivity.
Qed.

(** What one step does to the callers that wait or were answered, and to
    the number of lookups started. *)
Lemma step_callers this s :
  CacheInv this ->
  let next := FridaAndroidInterceptor.step this s in
  map fst (FridaAndroidInterceptor.returned next)
    ++ map fst (FridaAndroidInterceptor.awaiting next) =
  (map fst (FridaAndroidInterceptor.returned this)
    ++ map fst (FridaAndroidInterceptor.awaiting this)) ++ callersOf [s] /\
  (FridaAndroidInterceptor.started next
   <= FridaAndroidInterceptor.started this + List.length (callersOf [s]))%nat.
Proof.
  intros Hinv. destruct s as [caller|p r]; cbn [FridaAndroidInterceptor.step callersOf].
  - destruct (FridaAndroidInterceptor._fridaTargetsPromise this) as [p|] eqn:Hslot.
    + rewrite (later_call caller p this Hslot). cbn.
      rewrite map_app, app_assoc. split; [reflexivity|lia].
    + rewrite (first_call caller this Hslot). cbn.
      rewrite map_app, app_assoc. split; [reflexivity|lia].
  - destruct (existsb (Nat.eqb p) (FridaAndroidInterceptor.lookups this)) eqn:Hp.
    + rewrite (settle_active p r this (active_slot p this Hinv Hp) Hinv). cbn.
      rewrite map_app, map_map, !app_nil_r. cbn. split; [reflexivity|lia].
    + rewrite (settle_inactive p r this Hp). cbn. rewrite app_nil_r.
      split; [reflexivity|lia].
Qed.

Lemma steps_callers l this :
  CacheInv this ->
  let final := FridaAndroidInterceptor.steps this l in
  map fst (FridaAndroidInterceptor.returned final)
    ++ map fst (FridaAndroidInterceptor.awaiting final) =
  (map fst (FridaAndroidInterceptor.returned this)
    ++ map fst (FridaAndroidInterceptor.awaiting this)) ++ callersOf l /\
  (FridaAndroidInterceptor.started final
   <= FridaAndroidInterceptor.started this + List.length (callersOf l))%nat.
Proof.
  revert this. induction l as [|s l IH]; intros this Hinv; cbv zeta.
  - cbn. rewrite app_nil_r. split; [reflexivity|lia].
  - change (FridaAndroidInterceptor.steps this (s :: l))
      with (FridaAndroidInterceptor.steps (FridaAndroidInterceptor.step this s) l).
    destruct (step_callers this s Hinv) as [E1 L1].
    assert (Hnext : CacheInv (FridaAndroidInterceptor.step this s)).
    { destruct s; [apply CacheInv_getFridaHosts|apply CacheInv_settle]; exact Hinv. }
    destruct (IH _ Hnext) as [E2 L2]. cbv zeta in *.
    rewrite E2, E1. split.
    + rewrite <- !app_assoc. f_equal. f_equal. destruct s; reflexivity.
    + assert (List.length (callersOf (s :: l))
              = (List.length (callersOf [s]) + List.length (callersOf l))%nat)
        by (destruct s; reflexivity).
      lia.
Qed.

(** X17.  No caller is lost and none is answered twice: the callers that have
    been answered, followed by those that still wait, are the callers in
    the order of their calls.  There are never more lookups than calls. *)
Theorem getFridaHosts_every_caller_once (l : list FridaAndroidInterceptor.Step) :
  let this := FridaAndroidInterceptor.steps FridaAndroidInterceptor.new l in
  map fst (FridaAndroidInterceptor.returned this)
    ++ map fst (FridaAndroidInterceptor.awaiting this) = callersOf l /\
  (FridaAndroidInterceptor.started this <= List.length (callersOf l))%nat.
Proof.
  destruct (steps_callers l FridaAndroidInterceptor.new CacheInv_new) as [E L].
  cbv zeta in *. split; [exact E|exact L].
Qed.

(** X18.  The slot holds a lookup exactly while that lookup is in flight,
    and whoever waits, waits for the lookup in the slot.  So the [finally]
    callback, which clears the slot whatever is in it, only ever clears
    the lookup that has just settled, and the settlement leaves nobody
    waiting. *)
Theorem getFridaHosts_slot_holds_lookup_in_flight
    (l : list FridaAndroidInterceptor.Step) (p : FridaAndroidInterceptor.PromiseId) :
  let this := FridaAndroidInterceptor.steps FridaAndroidInterceptor.new l in
  (FridaAndroidInterceptor._fridaTargetsPromise this = Some p <->
   In p (FridaAndroidInterceptor.lookups this)) /\
  (forall caller q,
     In (caller, q) (FridaAndroidInterceptor.awaiting this) ->
     FridaAndroidInterceptor._fridaTargetsPromise this = Some q) /\
  (forall r,
     In p (FridaAndroidInterceptor.lookups this) ->
     FridaAndroidInterceptor.awaiting (FridaAndroidInterceptor.settle p r this) = []).
Proof.
  intros this.
  assert (Hinv : CacheInv this) by apply CacheInv_steps, CacheInv_new.
  assert (Hslot : In p (FridaAndroidInterceptor.lookups this) ->
                  FridaAndroidInterceptor._fridaTargetsPromise this = Some p).
  { intros Hin. apply (active_slot p this Hinv).
    apply existsb_exists. exists p. split; [exact Hin|apply Nat.eqb_refl]. }
  split; [split; [|exact Hslot]|split].
  - intros Hp. unfold CacheInv in Hinv. rewrite Hp in Hinv.
    destruct Hinv as [Hl _]. rewrite Hl. left. reflexivity.
  - intros caller q Hin. unfold CacheInv in Hinv.
    destruct (FridaAndroidInterceptor._fridaTargetsPromise this) as [p'|].
    + destruct Hinv as [_ Ha].
      pose proof (proj1 (List.Forall_forall _ _) Ha _ Hin) as E.
      cbn in E. rewrite E. reflexivity.
    + destruct Hinv as [_ Ha]. rewrite Ha in Hin. destruct Hin.
  - intros r Hin. rewrite (settle_active p r this (Hslot Hin) Hinv). reflexivity.
Qed.

Example getFridaHosts_two_rounds :
  let emulator := hostOf "emulator-5554" available in
  let this :=
    FridaAndroidInterceptor.steps FridaAndroidInterceptor.new
      [FridaAndroidInterceptor.Calls 1%nat; FridaAndroidInterceptor.Calls 2%nat;
       FridaAndroidInterceptor.Settles 0%nat (Rejected "adb server is down");
       FridaAndroidInterceptor.Settles 0%nat (Fulfilled [emulator]);
       FridaAndroidInterceptor.Calls 3%nat;
       FridaAndroidInterceptor.Settles 1%nat (Fulfilled [emulator]);
       FridaAndroidInterceptor.Calls 4%nat] in
  FridaAndroidInterceptor.returned this =
    [(1%nat, Rejected "adb server is down"); (2%nat, Rejected "adb server is down");
     (3%nat, Fulfilled [emulator])] /\
  FridaAndroidInterceptor.awaiting this = [(4%nat, 2%nat)] /\
  FridaAndroidInterceptor.started this = 3%nat.
Proof. repeat split. Qed.

(** ** prepare.ts: the mode of the override files *)

Lemma toInt32_small (z : Z) : 0 <= z < 2 ^ 31 -> toInt32 z = z.
Proof.
  intros Hz. unfold toInt32.
  rewrite Z.mod_small by lia.
  destruct (Z.ltb_spec z (2 ^ 31)); [reflexivity|lia].
Qed.

(** X19.  For a mode as the file system reports it, the mode given to an
    override file keeps every bit that is set, adds the read bit of the
    others and, for a directory only, their execute bit, and changes
    nothing else; it is again such a mode, and giving it a second time
    changes nothing. *)
Theorem chmodMode_sets_other_bits (stats : Stats.t) :
  0 <= Stats.mode stats < 2 ^ 31 ->
  let mode' := chmodMode stats in
  (forall i, 0 <= i ->
     Z.testbit mode' i =
       (Z.testbit (Stats.mode stats) i || Z.eqb i 2
        || (Stats.isDirectory stats && Z.eqb i 0))%bool) /\
  0 <= mode' < 2 ^ 31 /\
  chmodMode (Stats.mk (Stats.isDirectory stats) mode') = mode'.
Proof.
  intros Hmode.
  assert (Hbits : forall add, 0 <= add < 8 ->
    0 <= Z.lor (Stats.mode stats) add < 2 ^ 31).
  { intros add Hadd. split; [apply Z.lor_nonneg; lia|].
    destruct (Z.eq_dec (Z.lor (Stats.mode stats) add) 0) as [->|Hne]; [lia|].
    apply Z.log2_lt_pow2; [assert (0 <= Z.lor (Stats.mode stats) add) by (apply Z.lor_nonneg; lia); lia|].
    rewrite Z.log2_lor by lia.
    apply Z.max_lub_lt.
    - destruct (Z.eq_dec (Stats.mode stats) 0) as [->|Hm]; [cbn; lia|].
      apply Z.log2_lt_pow2; lia.
    - destruct (Z.eq_dec add 0) as [->|Ha]; [cbn; lia|].
      apply Z.log2_lt_pow2; lia. }
  assert (Hmode' : chmodMode stats =
                   Z.lor (Stats.mode stats) (if Stats.isDirectory stats then 5 else 4)).
  { unfold chmodMode, bitOr. rewrite (toInt32_small _ Hmode).
    destruct (Stats.isDirectory stats); reflexivity. }
  cbv zeta. rewrite Hmode'. split; [|split].
  - intros i Hi. rewrite Z.lor_spec, <- orb_assoc. f_equal.
    destruct (Stats.isDirectory stats); cbn [andb].
    + destruct (Z.eqb_spec i 0) as [->|H0]; [reflexivity|].
      destruct (Z.eqb_spec i 2) as [->|H2]; [reflexivity|].
      destruct (Z.eqb_spec i 1) as [->|H1]; [reflexivity|].
      apply Z.bits_above_log2; cbn; lia.
    + rewrite orb_false_r.
      destruct (Z.eqb_spec i 2) as [->|H2]; [reflexivity|].
      destruct (Z.eqb_spec i 0) as [->|H0]; [reflexivity|].
      destruct (Z.eqb_spec i 1) as [->|H1]; [reflexivity|].
      apply Z.bits_above_log2; cbn; lia.
  - apply Hbits. destruct (Stats.isDirectory stats); lia.
  - unfold chmodMode, bitOr. cbn [Stats.isDirectory Stats.mode].
    rewrite toInt32_small by (apply Hbits; destruct (Stats.isDirectory stats); lia).
    destruct (Stats.isDirectory stats); cbn [toInt32];
      rewrite <- Z.lor_assoc, Z.lor_diag; reflexivity.
Qed.

Lemma chmodMode_sets_other_bits_witness :
  let file := Stats.mk false 33200 (* 0o100660 *) in
  let directory := Stats.mk true 16872 (* 0o40750 *) in
  chmodMode (Stats.mk false (chmodMode file)) = chmodMode file /\
  chmodMode (Stats.mk true (chmodMode directory)) = chmodMode directory.
Proof.
  intros file directory. split.
  - apply (chmodMode_sets_other_bits file). cbn. lia.
  - apply (chmodMode_sets_other_bits directory). cbn. lia.
Defined.

Example chmodMode_examples :
  chmodMode (Stats.mk false 33200) = 33204 (* 0o100664 *) /\
  chmodMode (Stats.mk true 16872) = 16877 (* 0o40755 *) /\
  chmodMode (Stats.mk false 33261) = 33261 (* 0o100755 stays *).
Proof. repeat split. Qed.

(** ** What makes discovery fail *)

Section Rejections.

Variable blamed : Call -> bool.

Lemma rejectionsFrom_mono {A} (t : Task A) (seen seen' : list (Call * Error)) :
  (forall x, In x seen -> In x seen') ->
  rejectionsFrom blamed seen t -> rejectionsFrom blamed seen' t.
Proof.
  revert seen seen'. induction t as [a|e|e t IH|c k IH|l IHl r IHr];
    intros seen seen' Hincl; cbn.
  - auto.
  - intros [c [Hc Hin]]. eauto.
  - apply IH. exact Hincl.
  - intros H o. eapply IH; [|apply H].
    destruct o; [exact Hincl|]. intros x [<-|Hx]; [left; reflexivity|right; auto].
  - intros [Hl Hr]. split; [eapply IHl|eapply IHr]; eauto.
Qed.

Lemma rejectionsFrom_bind {A B} (t : Task A) (f : A -> Task B) seen :
  rejectionsFrom blamed seen t ->
  (forall a seen', rejectionsFrom blamed seen' (f a)) ->
  rejectionsFrom blamed seen (bind t f).
Proof.
  intros Ht Hf. revert seen Ht.
  induction t as [a|e|e t IH|c k IH|l IHl r IHr]; intros seen; cbn; auto.
  intros [Hl Hr]. auto.
Qed.

Lemma rejectionsFrom_started {A B} (t : Task B) (e : Error) seen :
  (exists c, blamed c = true /\ In (c, e) seen) ->
  rejectionsFrom blamed seen (started t e : Task A).
Proof. intros H. induction t; cbn; auto. Qed.

Lemma rejectionsFrom_all2 {A B} (t1 : Task A) (t2 : Task B) seen :
  rejectionsFrom blamed seen t1 -> rejectionsFrom blamed seen t2 ->
  rejectionsFrom blamed seen (all2 t1 t2).
Proof.
  revert t2 seen. induction t1 as [a|e|e t1 IH|c k IH|l IHl r IHr]; intros t2 seen H1.
  - induction t2 as [b|e|e t2 IH2|c2 k2 IH2|l2 IHl2 r2 IHr2]; intros H2.
    + exact I.
    + exact H2.
    + exact (IH2 H2).
    + apply (rejectionsFrom_bind (Wait c2 k2)); [exact H2|]. intros; exact I.
    + apply (rejectionsFrom_bind (Race l2 r2)); [exact H2|]. intros; exact I.
  - intros _. destruct t2; apply (rejectionsFrom_started _ e); exact H1.
  - intros H2. destruct t2; exact (IH _ _ H1 H2).
  - revert seen H1.
    induction t2 as [b|e|e t2 IH2|c2 k2 IH2|l2 IHl2 r2 IHr2]; intros seen H1 H2.
    + intros o. apply rejectionsFrom_bind; [exact (H1 o)|]. intros; exact I.
    + exact H2.
    + exact (IH2 seen H1 H2).
    + split; intros o.
      * apply IH; [exact (H1 o)|].
        eapply rejectionsFrom_mono; [|exact H2].
        destruct o; [auto|]. intros x Hx. right. exact Hx.
      * apply IH2; [|exact (H2 o)].
        intros o'. eapply rejectionsFrom_mono; [|exact (H1 o')].
        destruct o' as [v'|e'], o as [v|e]; intros x Hx; cbn in *; intuition.
    + destruct H2 as [H2l H2r]. split; [exact (IHl2 seen H1 H2l)|exact (IHr2 seen H1 H2r)].
  - destruct H1 as [H1l H1r].
    induction t2 as [b|e|e t2 IH2|c2 k2 IH2|l2 IHl2 r2 IHr2]; intros H2.
    + split; [exact (IHl _ _ H1l H2)|exact (IHr _ _ H1r H2)].
    + exact H2.
    + exact (IH2 H2).
    + split; [exact (IHl _ _ H1l H2)|exact (IHr _ _ H1r H2)].
    + split; [exact (IHl _ _ H1l H2)|exact (IHr _ _ H1r H2)].
Qed.

Lemma rejectionsFrom_all {A} (ts : list (Task A)) seen :
  Forall (fun t => forall seen', rejectionsFrom blamed seen' t) ts ->
  rejectionsFrom blamed seen (all ts).
Proof.
  intros Hts. revert seen. induction Hts as [|t ts Ht _ IH]; intros seen; cbn [all].
  - exact I.
  - apply rejectionsFrom_bind; [|intros [a l] seen'; exact I].
    apply rejectionsFrom_all2; [apply Ht|apply IH].
Qed.

(** A rejected run of such a task repeats the rejection of a blamed
    request that settled in this run. *)
Lemma rejectionsFrom_exec {A} (w : World) (t : Task A) seen h0 ext n e h' n' :
  rejectionsFrom blamed seen t ->
  (forall c e0, In (c, e0) seen -> In (Settled c (Rejected e0)) ext) ->
  exec w t (h0 ++ ext) n = (Rejected e, h', n') ->
  exists ext' c,
    h' = h0 ++ ext' /\ blamed c = true /\ In (Settled c (Rejected e)) ext'.
Proof.
  revert seen ext n. induction t as [a|e0|e0 t IH|c k IH|l IHl r IHr];
    intros seen ext n Ht Hseen Hrun; cbn in *.
  - discriminate.
  - injection Hrun as <- <- <-. destruct Ht as [c [Hc Hin]].
    exists ext, c. auto.
  - rewrite <- app_assoc in Hrun. eapply IH; [exact Ht| |exact Hrun].
    intros c e1 Hin. apply in_or_app. left. auto.
  - rewrite <- app_assoc in Hrun.
    eapply (IH (answer w c (h0 ++ ext))); [apply Ht| |exact Hrun].
    intros c1 e1 Hin. apply in_or_app.
    destruct (answer w c (h0 ++ ext)) as [v|e2] eqn:Hanswer.
    + left. auto.
    + destruct Hin as [Heq|Hin]; [|left; auto].
      injection Heq as <- <-. right. left. reflexivity.
  - destruct Ht as [Hl Hr]. destruct (first w (h0 ++ ext) n); eauto.
Qed.

End Rejections.

Lemma rejectionsFrom_getHostStatus (deviceId : string) seen :
  rejectionsFrom failsDiscovery seen (getHostStatus deviceId).
Proof.
  cbn. split; intros [c1|e1]; cbn; intros [c2|e2]; cbn; try exact I;
    intros [entries|e3]; cbn;
    try (destruct (existsb _ entries); cbn; try exact I);
    intros [[|]|e4]; cbn; try exact I;
    exists (IsProbablyRooted deviceId); cbn; auto.
Qed.

(** X20.  Discovery fails only when the devices cannot be listed or when the
    rooted check of a device is rejected, and then with that error.  A
    port that is closed and a directory that cannot be read on any device
    never make it fail. *)
Theorem getAndroidFridaHosts_fails_only_from (w : World) (h h' : History) (e : Error) :
  run w getAndroidFridaHosts h = (Rejected e, h') ->
  exists ext c,
    h' = h ++ ext /\
    In (Settled c (Rejected e)) ext /\
    (c = GetConnectedDevices \/ exists deviceId, c = IsProbablyRooted deviceId).
Proof.
  unfold run. intros Hrun.
  destruct (exec w getAndroidFridaHosts h 0) as [[o hh] n] eqn:Hexec.
  cbn in Hrun. injection Hrun as -> ->.
  rewrite <- (app_nil_r h) in Hexec.
  destruct (rejectionsFrom_exec failsDiscovery w getAndroidFridaHosts [] h [] 0%nat
              e h' n) as [ext [c [Hh' [Hc Hin]]]].
  - unfold getAndroidFridaHosts. cbn [call bind rejectionsFrom].
    intros [devices|e0]; cbn [bind rejectionsFrom].
    + apply rejectionsFrom_bind; [|intros; exact I].
      apply rejectionsFrom_all. apply Forall_map. apply Forall_forall.
      intros deviceId _ seen'. apply rejectionsFrom_getHostStatus.
    + exists GetConnectedDevices. split; [reflexivity|left; reflexivity].
  - intros c e0 [].
  - exact Hexec.
  - exists ext, c. split; [exact Hh'|]. split; [exact Hin|].
    destruct c; try discriminate Hc; eauto.
Qed.

Lemma getAndroidFridaHosts_fails_only_from_witness :
  let w := withDevices ["emulator-5554"; "R58M123ABC"] offlineWorld in
  exists ext c,
    snd (run w getAndroidFridaHosts []) = [] ++ ext /\
    In (Settled c (Rejected "device offline")) ext /\
    (c = GetConnectedDevices \/ exists deviceId, c = IsProbablyRooted deviceId).
Proof.
  intros w.
  apply (getAndroidFridaHosts_fails_only_from w []). reflexivity.
Defined.
